(** * Fedora Tagger backend library: tags, votes, ratings and statistics

    A shallow embedding of [taggerapi/taggerlib/__init__.py].  The library
    runs against a relational store through an ORM session; the tables are
    lists of rows, an operation is a function of the session that returns an
    outcome (a value or a raised exception) together with the session it
    leaves behind, so that what a failed call has already written stays
    written. *)

From Stdlib Require Import ZArith List String Ascii Bool Lia Floats DecimalString.
Import ListNotations.

Local Open Scope Z_scope.

(** ** Python values used by the library *)

Module Py.

(** The double quote character of the message templates. *)
Definition dq : string := String (ascii_of_nat 34) EmptyString.

Definition cat (a b : string) : string := String.append a b.

(** ["%s"] with the two quotes the templates put around it. *)
Definition quoted (s : string) : string := cat dq (cat s dq).

(** [str] of an integer, as [%s] prints it. *)
Definition str_int (z : Z) : string := NilZero.string_of_int (Z.to_int z).

(** A number as [statistics] hands it out: an [int], or the [float] that a
    division by [float(n)] produces. *)
Inductive num : Type :=
| Int (z : Z)
| Float (f : float).

(** [float(z)]: the binary64 number nearest to [z] (ties to even).  Python
    raises [OverflowError] beyond the binary64 range, where this conversion
    gives infinity; a row count does not get there. *)
Definition float_of_int (z : Z) : float :=
  SF2Prim (binary_normalize prec emax z 0 false).

(** [a / float(b)] for two integers. *)
Definition div_float (a b : Z) : float :=
  PrimFloat.div (float_of_int a) (float_of_int b).

(** [len] of a list, as a Python integer. *)
Definition len {A : Type} (l : list A) : Z := Z.of_nat (List.length l).

(** [sum] of a list of integers. *)
Definition sum (l : list Z) : Z := fold_left Z.add l 0.

(** A [dict] with string keys: the entries in insertion order, one per key. *)
Definition dict (V : Type) : Type := list (string * V).

(** [d[k] = v]: overwrite the entry of [k] where it stands, or append one. *)
Fixpoint dict_set {V : Type} (k : string) (v : V) (d : dict V) : dict V :=
  match d with
  | [] => [(k, v)]
  | (k', v') :: d' =>
      if String.eqb k' k then (k', v) :: d' else (k', v') :: dict_set k v d'
  end.

(** [dict(pairs)]: the pairs are stored from left to right, a later pair
    replacing the value of an earlier one with the same key. *)
Definition dict_of {V : Type} (pairs : list (string * V)) : dict V :=
  fold_left (fun d kv => dict_set (fst kv) (snd kv) d) pairs [].

Definition values {V : Type} (d : dict V) : list V := map snd d.

End Py.

(** ** The store and the ORM classes of [model] *)

Module model.

(** Modelled from the spec: the module [model] with the mapped classes is
    not among the sources.  A package has an id, a unique name and a
    summary; a user is known by the originating address; a tag belongs to a
    package and has a label and the counters [like] and [dislike]; a vote
    belongs to a (user, tag) pair and has a boolean polarity; a rating
    belongs to a (user, package) pair and has a numeric value. *)
Record Package : Type := mkPackage
  { pkg_id : Z; pkg_name : string; pkg_summary : string }.

Record FASUser : Type := mkUser
  { user_id : Z; user_ip : string }.

Record Tag : Type := mkTag
  { tag_id : Z; tag_package_id : Z; tag_label : string;
    tag_like : Z; tag_dislike : Z }.

Record Vote : Type := mkVote
  { vote_id : Z; vote_user_id : Z; vote_tag_id : Z; vote_like : bool }.

Record Rating : Type := mkRating
  { rating_id : Z; rating_package_id : Z; rating_user_id : Z;
    rating_value : Z }.

(** What a session sees of the store: one list of rows per table. *)
Record Session : Type := mkSession
  { packages : list Package;
    users : list FASUser;
    tags : list Tag;
    votes : list Vote;
    ratings : list Rating }.

Definition empty : Session := mkSession [] [] [] [] [].

(** The exceptions the library meets.  [NoResultFound] is the store's
    own signal, a subclass of [SQLAlchemyError]; [TaggerapiException] is
    the class the library declares. *)
Inductive exn : Type :=
| NoResultFound
| TaggerapiException (msg : string).

Definition is_NoResultFound (e : exn) : bool :=
  match e with NoResultFound => true | TaggerapiException _ => false end.

Definition is_SQLAlchemyError (e : exn) : bool :=
  match e with NoResultFound => true | TaggerapiException _ => false end.

Inductive outcome (A : Type) : Type :=
| Return (a : A)
| Raise (e : exn).
Arguments Return {A} a.
Arguments Raise {A} e.

(** A computation against the session. *)
Definition M (A : Type) : Type := Session -> outcome A * Session.

Definition ret {A : Type} (a : A) : M A := fun s => (Return a, s).

Definition raise {A : Type} (e : exn) : M A := fun s => (Raise e, s).

Definition bind {A B : Type} (c : M A) (k : A -> M B) : M B :=
  fun s =>
    match c s with
    | (Return a, s') => k a s'
    | (Raise e, s') => (Raise e, s')
    end.

(** [try: c  except <class>: h], the class given by its test [handles]. *)
Definition try_except {A : Type} (c : M A) (handles : exn -> bool)
    (h : M A) : M A :=
  fun s =>
    match c s with
    | (Return a, s') => (Return a, s')
    | (Raise e, s') => if handles e then h s' else (Raise e, s')
    end.

(** A lookup that ends like the ORM's [.one()]: the row, or
    [NoResultFound]. *)
Definition one {A : Type} (r : option A) : M A :=
  match r with
  | Some a => ret a
  | None => raise NoResultFound
  end.

(** The primary key the store gives to an inserted row: one more than
    the largest key of the table. *)
Definition next_id (ids : list Z) : Z := 1 + fold_right Z.max 0 ids.

(** *** Package *)

Definition find_package (pkgname : string) (s : Session) : option Package :=
  find (fun p => String.eqb (pkg_name p) pkgname) (packages s).

(** Modelled from the spec: [model.Package.by_name] is not among the
    sources; a package is looked up by its name and the lookup fails with
    the store's not-found signal when the name is absent. *)
Definition Package_by_name (pkgname : string) : M Package :=
  fun s => one (find_package pkgname s) s.

(** Modelled from the spec: [model.Package.all], every package row. *)
Definition Package_all : M (list Package) :=
  fun s => (Return (packages s), s).

(** Modelled from the spec: the relationship [p.tags] of [model.Package],
    the tags whose package is [p]. *)
Definition Package_tags (s : Session) (p : Package) : list Tag :=
  filter (fun t => tag_package_id t =? pkg_id p) (tags s).

(** *** FASUser *)

Definition find_user (ipaddress : string) (s : Session) : option FASUser :=
  find (fun u => String.eqb (user_ip u) ipaddress) (users s).

(** Modelled from the spec: [model.FASUser.get_or_create] is not among
    the sources; a user is identified by the originating address, created on
    first contact and reused afterwards. *)
Definition FASUser_get_or_create (ipaddress : string) : M FASUser :=
  fun s =>
    match find_user ipaddress s with
    | Some u => (Return u, s)
    | None =>
        let u := mkUser (next_id (map user_id (users s))) ipaddress in
        (Return u,
         mkSession (packages s) (users s ++ [u]) (tags s) (votes s)
                   (ratings s))
    end.

(** *** Tag *)

Definition find_tag (package_id : Z) (label : string) (s : Session)
    : option Tag :=
  find (fun t => (tag_package_id t =? package_id)
                 && String.eqb (tag_label t) label) (tags s).

(** Modelled from the spec: [model.Tag.get] is not among the sources;
    the tag of a package is looked up by (package, label). *)
Definition Tag_get (package_id : Z) (label : string) : M Tag :=
  fun s => one (find_tag package_id label s) s.

Definition set_tags (ts : list Tag) (s : Session) : Session :=
  mkSession (packages s) (users s) ts (votes s) (ratings s).

(** Modelled from the spec: the columns the caller does not give to
    [model.Tag(package_id=..., label=...)] take their defaults, [like = 1]
    and [dislike = 0]; [session.add] and [session.flush] insert the row and
    give it its primary key. *)
Definition Tag_create (package_id : Z) (label : string) : M Tag :=
  fun s =>
    let t := mkTag (next_id (map tag_id (tags s))) package_id label 1 0 in
    (Return t, set_tags (tags s ++ [t]) s).

(** UPDATE by primary key: the row with the object's key takes the
    object's columns. *)
Definition put_tag (t : Tag) (ts : list Tag) : list Tag :=
  map (fun r => if tag_id r =? tag_id t then t else r) ts.

(** The UPDATE a flush emits for a loaded tag. *)
Definition Tag_update (t : Tag) : M unit :=
  fun s => (Return tt, set_tags (put_tag t (tags s)) s).

Definition with_like (t : Tag) (n : Z) : Tag :=
  mkTag (tag_id t) (tag_package_id t) (tag_label t) n (tag_dislike t).

Definition with_dislike (t : Tag) (n : Z) : Tag :=
  mkTag (tag_id t) (tag_package_id t) (tag_label t) (tag_like t) n.

(** Modelled from the spec: [model.Tag.count_unique_label], the number of
    distinct labels over all tags. *)
Definition distinct_labels (ts : list Tag) : list string :=
  nodup string_dec (map tag_label ts).

Definition Tag_count_unique_label : M Z :=
  fun s => (Return (Py.len (distinct_labels (tags s))), s).

(** *** Vote *)

Definition find_vote (uid tid : Z) (s : Session) : option Vote :=
  find (fun v => (vote_user_id v =? uid) && (vote_tag_id v =? tid))
       (votes s).

(** Modelled from the spec: [model.Vote.get] is not among the sources;
    the vote of a user on a tag is looked up by (user, tag) and the lookup
    fails with a store error when there is none. *)
Definition Vote_get (uid tid : Z) : M Vote :=
  fun s => one (find_vote uid tid s) s.

(** A [Vote] instance in the hands of the library: built by the
    constructor and not yet in the store (no primary key), or loaded from
    it. *)
Inductive VoteObj : Type :=
| Transient (uid tid : Z) (like : bool)
| Persistent (v : Vote).

Definition with_vote_like (v : Vote) (b : bool) : Vote :=
  mkVote (vote_id v) (vote_user_id v) (vote_tag_id v) b.

Definition set_votes (vs : list Vote) (s : Session) : Session :=
  mkSession (packages s) (users s) (tags s) vs (ratings s).

Definition put_vote (v : Vote) (vs : list Vote) : list Vote :=
  map (fun r => if vote_id r =? vote_id v then v else r) vs.

(** [session.add(voteobj)] followed by the flush: INSERT for a new
    object, UPDATE by primary key for a loaded one. *)
Definition Vote_save (o : VoteObj) : M unit :=
  fun s =>
    match o with
    | Transient uid tid like =>
        let v := mkVote (next_id (map vote_id (votes s))) uid tid like in
        (Return tt, set_votes (votes s ++ [v]) s)
    | Persistent v => (Return tt, set_votes (put_vote v (votes s)) s)
    end.

(** [session.flush()] with [tagobj] and [voteobj] in the session: the
    tag's row takes the columns of the object (the same ones when the
    object was not modified), the vote is inserted or updated. *)
Definition Session_flush (tagobj : Tag) (voteobj : VoteObj) : M unit :=
  bind (Tag_update tagobj) (fun _ => Vote_save voteobj).

(** *** Rating *)

(** [model.Rating(...)], [session.add], [session.flush]: one more row. *)
Definition Rating_create (package_id uid value : Z) : M Rating :=
  fun s =>
    let r := mkRating (next_id (map rating_id (ratings s))) package_id uid
                      value in
    (Return r,
     mkSession (packages s) (users s) (tags s) (votes s) (ratings s ++ [r])).

End model.

Export model.

Declare Scope session_scope.
Notation "x <- c ;; k" := (bind c (fun x => k))
  (at level 61, c at next level, right associativity) : session_scope.
Notation "c ;;; k" := (bind c (fun _ => k))
  (at level 61, right associativity) : session_scope.
Local Open Scope string_scope.
Local Open Scope list_scope.
Local Open Scope session_scope.

(** ** The library *)

(** ['Tag "%s" added to the package "%s"' % (tag, pkgname)] *)
Definition msg_tag_added (tag pkgname : string) : string :=
  Py.cat "Tag " (Py.cat (Py.quoted tag)
    (Py.cat " added to the package " (Py.quoted pkgname))).

(** ['Rating "%s" added to the package "%s"' % (rating, pkgname)] *)
Definition msg_rating_added (rating : Z) (pkgname : string) : string :=
  Py.cat "Rating " (Py.cat (Py.quoted (Py.str_int rating))
    (Py.cat " added to the package " (Py.quoted pkgname))).

(** The message of the exception [add_vote] raises. *)
Definition msg_not_found : string :=
  "This tag could not be found associated to this package".

(** ['Your vote on the tag "%s" for the package "%s" did not changed'
     % (tag, pkgname)] *)
Definition msg_not_changed (tag pkgname : string) : string :=
  Py.cat "Your vote on the tag " (Py.cat (Py.quoted tag)
    (Py.cat " for the package " (Py.cat (Py.quoted pkgname)
      " did not changed"))).

(** ['Vote %s on the tag "%s" of the package "%s"' % (verb, tag, pkgname)] *)
Definition msg_vote (verb tag pkgname : string) : string :=
  Py.cat "Vote " (Py.cat verb (Py.cat " on the tag " (Py.cat (Py.quoted tag)
    (Py.cat " of the package " (Py.quoted pkgname))))).

(** [add_tag(session, pkgname, tag, ipaddress)] *)
Definition add_tag (pkgname tag ipaddress : string) : M string :=
  package <- Package_by_name pkgname ;;
  user <- FASUser_get_or_create ipaddress ;;
  tagobj <- try_except
              (tagobj <- Tag_get (pkg_id package) tag ;;
               ret (with_like tagobj (tag_like tagobj + 1)))
              is_NoResultFound
              (Tag_create (pkg_id package) tag) ;;
  let voteobj := Transient (user_id user) (tag_id tagobj) true in
  Session_flush tagobj voteobj ;;;
  ret (msg_tag_added tag pkgname).

(** [add_rating(session, pkgname, rating, ipaddress)] *)
Definition add_rating (pkgname : string) (rating : Z) (ipaddress : string)
    : M string :=
  package <- Package_by_name pkgname ;;
  user <- FASUser_get_or_create ipaddress ;;
  ratingobj <- Rating_create (pkg_id package) (user_id user) rating ;;
  ret (msg_rating_added rating pkgname).

(** What the second [try] of [add_vote] leaves: the function has returned
    from inside it, or it goes on with [verb], [tagobj] and [voteobj]. *)
Inductive vote_step : Type :=
| Returned (msg : string)
| Continue (verb : string) (tagobj : Tag) (voteobj : VoteObj).

(** [add_vote(session, pkgname, tag, vote, ipaddress)] *)
Definition add_vote (pkgname tag : string) (vote : bool) (ipaddress : string)
    : M string :=
  user <- FASUser_get_or_create ipaddress ;;
  tagobj <- try_except
              (package <- Package_by_name pkgname ;;
               Tag_get (pkg_id package) tag)
              is_SQLAlchemyError
              (raise (TaggerapiException msg_not_found)) ;;
  step <- try_except
            (voteobj <- Vote_get (user_id user) (tag_id tagobj) ;;
             if Bool.eqb (vote_like voteobj) vote then
               ret (Returned (msg_not_changed tag pkgname))
             else
               let tagobj' :=
                 if vote_like voteobj then
                   with_dislike (with_like tagobj (tag_like tagobj - 1))
                                (tag_dislike tagobj + 1)
                 else
                   with_like (with_dislike tagobj (tag_dislike tagobj - 1))
                             (tag_like tagobj + 1) in
               ret (Continue "changed" tagobj'
                      (Persistent (with_vote_like voteobj vote))))
            is_SQLAlchemyError
            (let voteobj := Transient (user_id user) (tag_id tagobj) vote in
             let tagobj' :=
               if vote then with_like tagobj (tag_like tagobj + 1)
               else with_dislike tagobj (tag_dislike tagobj + 1) in
             ret (Continue "added" tagobj' voteobj)) ;;
  match step with
  | Returned msg => ret msg
  | Continue verb tagobj voteobj =>
      Session_flush tagobj voteobj ;;;
      ret (msg_vote verb tag pkgname)
  end.

(** [statistics(session)] *)
Definition statistics : M (Py.dict (Py.dict Py.num)) :=
  fun session =>
    (packages <- Package_all ;;
     n_tags <- Tag_count_unique_label ;;
     let raw_data :=
       Py.dict_of
         (map (fun p => (pkg_name p, Py.len (Package_tags session p)))
              packages) in
     let n_packs := Py.len raw_data in
     let no_tags :=
       Py.len (filter (fun v => Z.eqb v 0) (Py.values raw_data)) in
     let with_tags := n_packs - no_tags in
     let total :=
       Py.sum (map (fun p => Py.len (Package_tags session p)) packages) in
     let tags_per_package :=
       if Z.eqb n_packs 0 then Py.Int 0
       else Py.Float (Py.div_float total n_packs) in
     let tags_per_package_no_zeroes :=
       if Z.eqb with_tags 0 then Py.Int 0
       else Py.Float (Py.div_float total with_tags) in
     ret [("summary",
           [("total_packages", Py.Int n_packs);
            ("total_unique_tags", Py.Int n_tags);
            ("no_tags", Py.Int no_tags);
            ("with_tags", Py.Int with_tags);
            ("tags_per_package", tags_per_package);
            ("tags_per_package_no_zeroes", tags_per_package_no_zeroes)])])
    session.

(** ** Concrete stores *)

Definition mattd : Package := mkPackage 1 "mattd" "Matt Daemon".

(** The store [createdb.py --with-dev-data] leaves. *)
Definition dev_data : Session := mkSession [mattd] [] [] [] [].


(** A store with one tag that one user likes and another dislikes. *)
Definition voted : Session :=
  mkSession [mattd]
            [mkUser 1 "10.0.0.1"; mkUser 2 "10.0.0.2"]
            [mkTag 1 1 "daemon" 1 1]
            [mkVote 1 1 1 true; mkVote 2 2 1 false]
            [].

(** Packages {A: 3 tags, B: 0 tags}. *)
Definition store_AB : Session :=
  mkSession [mkPackage 1 "A" "first"; mkPackage 2 "B" "second"]
            []
            [mkTag 1 1 "x" 1 0; mkTag 2 1 "y" 1 0; mkTag 3 1 "z" 1 0]
            [] [].

(** ** Reading the store *)

(** The tag that a package name and a label resolve to, if both exist. *)
Definition resolve_tag (pkgname tag : string) (s : Session) : option Tag :=
  match find_package pkgname s with
  | Some p => find_tag (pkg_id p) tag s
  | None => None
  end.

(** The number of votes of one polarity on the tag [tid]. *)
Definition count_votes (like : bool) (tid : Z) (vs : list Vote) : Z :=
  Py.len (filter (fun v => Z.eqb (vote_tag_id v) tid
                           && Bool.eqb (vote_like v) like) vs).

(** The votes of one user on one tag. *)
Definition votes_of (uid tid : Z) (vs : list Vote) : list Vote :=
  filter (fun v => Z.eqb (vote_user_id v) uid && Z.eqb (vote_tag_id v) tid) vs.

(** The counters of every tag equal the numbers of its votes. *)
Definition counters_ok (s : Session) : bool :=
  forallb (fun t => Z.eqb (tag_like t) (count_votes true (tag_id t) (votes s))
                    && Z.eqb (tag_dislike t)
                             (count_votes false (tag_id t) (votes s)))
          (tags s).

Fixpoint distinct (l : list Z) : bool :=
  match l with
  | [] => true
  | x :: l' => negb (existsb (Z.eqb x) l') && distinct l'
  end.

(** The keys of the schema: primary keys of tags and of votes are unique,
    and the tag of every vote is a row of the tag table. *)
Definition keys_ok (s : Session) : bool :=
  distinct (map tag_id (tags s))
  && distinct (map vote_id (votes s))
  && forallb (fun v => existsb (fun t => Z.eqb (tag_id t) (vote_tag_id v))
                               (tags s))
             (votes s).

(** The state an operation leaves and the outcome it hands back. *)
Definition state_after {A : Type} (c : M A) (s : Session) : Session :=
  snd (c s).

Definition outcome_of {A : Type} (c : M A) (s : Session) : outcome A :=
  fst (c s).

(** [n] calls in a row, each on the state the one before left. *)
Fixpoint times {A : Type} (n : nat) (c : M A) (s : Session) : Session :=
  match n with
  | O => s
  | S n' => times n' c (state_after c s)
  end.

(** ** The invariants, table by table *)

(** The part of a vote in the count of [like] votes on [tid]. *)
Definition weight (like : bool) (tid : Z) (v : Vote) : Z :=
  if Z.eqb (vote_tag_id v) tid && Bool.eqb (vote_like v) like then 1 else 0.

(** The two invariants as properties of the tag and vote tables. *)
Definition counters_hold (ts : list Tag) (vs : list Vote) : Prop :=
  forall t, In t ts ->
    tag_like t = count_votes true (tag_id t) vs
    /\ tag_dislike t = count_votes false (tag_id t) vs.

Definition keys_hold (ts : list Tag) (vs : list Vote) : Prop :=
  NoDup (map tag_id ts)
  /\ NoDup (map vote_id vs)
  /\ forall v, In v vs -> In (vote_tag_id v) (map tag_id ts).

(** ** What the operations write *)

(** The user an address resolves to, and the session once it is there. *)
Definition the_user (ipaddress : string) (s : Session) : FASUser :=
  match find_user ipaddress s with
  | Some u => u
  | None => mkUser (next_id (map user_id (users s))) ipaddress
  end.

Definition with_user (ipaddress : string) (s : Session) : Session :=
  state_after (FASUser_get_or_create ipaddress) s.

(** The counters of a tag after a vote of polarity [old] has been turned
    into its opposite. *)
Definition flipped (old : bool) (t : Tag) : Tag :=
  if old then with_dislike (with_like t (tag_like t - 1)) (tag_dislike t + 1)
  else with_like (with_dislike t (tag_dislike t - 1)) (tag_like t + 1).

(** The counters of a tag after one more vote of polarity [vote]. *)
Definition bumped (vote : bool) (t : Tag) : Tag :=
  if vote then with_like t (tag_like t + 1)
  else with_dislike t (tag_dislike t + 1).

Definition new_vote (uid tid : Z) (like : bool) (s : Session) : Vote :=
  mkVote (next_id (map vote_id (votes s))) uid tid like.

Definition new_tag (package_id : Z) (label : string) (s : Session) : Tag :=
  mkTag (next_id (map tag_id (tags s))) package_id label 1 0.

(** The summary of a store without packages. *)
Definition zero_summary : Py.dict (Py.dict Py.num) :=
  [("summary",
    [("total_packages", Py.Int 0);
     ("total_unique_tags", Py.Int 0);
     ("no_tags", Py.Int 0);
     ("with_tags", Py.Int 0);
     ("tags_per_package", Py.Int 0);
     ("tags_per_package_no_zeroes", Py.Int 0)])].

(** ** Calls in sequence *)

(** A call of one of the four operations, with its arguments. *)
Inductive call : Type :=
| CallAddTag (pkgname tag ipaddress : string)
| CallAddRating (pkgname : string) (rating : Z) (ipaddress : string)
| CallAddVote (pkgname tag : string) (vote : bool) (ipaddress : string)
| CallStatistics.

(** The session a call leaves, whether it returns or raises. *)
Definition perform (c : call) (s : Session) : Session :=
  match c with
  | CallAddTag pkgname tag ipaddress =>
      state_after (add_tag pkgname tag ipaddress) s
  | CallAddRating pkgname rating ipaddress =>
      state_after (add_rating pkgname rating ipaddress) s
  | CallAddVote pkgname tag vote ipaddress =>
      state_after (add_vote pkgname tag vote ipaddress) s
  | CallStatistics => state_after statistics s
  end.

Definition perform_all (cs : list call) (s : Session) : Session :=
  fold_left (fun s' c => perform c s') cs s.

(** The (user, tag) pair of every vote row. *)
Definition vote_pairs (vs : list Vote) : list (Z * Z) :=
  map (fun v => (vote_user_id v, vote_tag_id v)) vs.

(** [l'] starts with [l]. *)
Definition begins {A : Type} (l l' : list A) : Prop :=
  exists k, l' = l ++ k.

(** [s'] has the packages of [s], and its users, tag keys, vote keys and
    ratings start with those of [s]. *)
Definition grown (s s' : Session) : Prop :=
  packages s' = packages s
  /\ begins (users s) (users s')
  /\ begins (map tag_id (tags s)) (map tag_id (tags s'))
  /\ begins (map vote_id (votes s)) (map vote_id (votes s'))
  /\ begins (ratings s) (ratings s').

(** ** Facts about tables *)

Section Tables.

Lemma next_id_above (ids : list Z) (i : Z) :
  In i ids -> i < next_id ids.
Proof.
  unfold next_id. induction ids as [|j ids IH]; cbn [fold_right In]; [tauto|].
  intros [->|Hin]; [lia|]. specialize (IH Hin). lia.
Qed.

Lemma next_id_not_in (ids : list Z) : ~ In (next_id ids) ids.
Proof. intros H. apply next_id_above in H. lia. Qed.

Lemma distinct_NoDup (l : list Z) : distinct l = true <-> NoDup l.
Proof.
  induction l as [|x l IH]; simpl.
  - split; [constructor | reflexivity].
  - rewrite andb_true_iff, negb_true_iff, IH. split.
    + intros [Hx Hl]. constructor; [|exact Hl].
      intros Hin. assert (existsb (Z.eqb x) l = true) as E.
      { apply existsb_exists. exists x. split; [exact Hin | apply Z.eqb_refl]. }
      congruence.
    + intros H. inversion H as [|? ? Hx Hl]; subst. split; [|exact Hl].
      destruct (existsb (Z.eqb x) l) eqn:E; [|reflexivity].
      apply existsb_exists in E. destruct E as [y [Hy Exy]].
      apply Z.eqb_eq in Exy. subst y. contradiction.
Qed.

Lemma len_app {A : Type} (l1 l2 : list A) :
  Py.len (l1 ++ l2) = Py.len l1 + Py.len l2.
Proof. unfold Py.len. rewrite length_app. lia. Qed.

Lemma len_nonneg {A : Type} (l : list A) : 0 <= Py.len l.
Proof. unfold Py.len. lia. Qed.

Lemma count_votes_cons like tid v vs :
  count_votes like tid (v :: vs) = weight like tid v + count_votes like tid vs.
Proof.
  unfold count_votes, weight. cbn [filter].
  destruct (Z.eqb (vote_tag_id v) tid && Bool.eqb (vote_like v) like);
    unfold Py.len; cbn [List.length]; lia.
Qed.

Lemma count_votes_app like tid vs ws :
  count_votes like tid (vs ++ ws)
  = count_votes like tid vs + count_votes like tid ws.
Proof. unfold count_votes. rewrite filter_app. apply len_app. Qed.

Lemma count_votes_nonneg like tid vs : 0 <= count_votes like tid vs.
Proof. apply len_nonneg. Qed.

Lemma count_votes_In like tid v vs :
  In v vs -> weight like tid v <= count_votes like tid vs.
Proof.
  induction vs as [|w vs IH]; cbn [In]; [tauto|].
  rewrite count_votes_cons. intros [->|Hin].
  - pose proof (count_votes_nonneg like tid vs). lia.
  - specialize (IH Hin). unfold weight at 2.
    destruct (Z.eqb (vote_tag_id w) tid && Bool.eqb (vote_like w) like); lia.
Qed.

Lemma put_tag_ids t ts : map tag_id (put_tag t ts) = map tag_id ts.
Proof.
  unfold put_tag. rewrite map_map. apply map_ext. intros r.
  destruct (Z.eqb_spec (tag_id r) (tag_id t)); congruence.
Qed.

Lemma put_vote_ids v vs : map vote_id (put_vote v vs) = map vote_id vs.
Proof.
  unfold put_vote. rewrite map_map. apply map_ext. intros r.
  destruct (Z.eqb_spec (vote_id r) (vote_id v)); congruence.
Qed.

Lemma put_tag_In t ts x :
  In x (put_tag t ts) ->
  x = t \/ (In x ts /\ tag_id x <> tag_id t).
Proof.
  unfold put_tag. rewrite in_map_iff. intros [r [E Hr]].
  destruct (Z.eqb_spec (tag_id r) (tag_id t)); subst; auto.
Qed.

Lemma put_tag_absent t ts :
  ~ In (tag_id t) (map tag_id ts) -> put_tag t ts = ts.
Proof.
  unfold put_tag. induction ts as [|r ts IH]; simpl; [reflexivity|].
  intros H. destruct (Z.eqb_spec (tag_id r) (tag_id t)) as [E|E].
  - exfalso. apply H. left. exact E.
  - f_equal. apply IH. intros Hin. apply H. right. exact Hin.
Qed.

Lemma put_vote_absent v vs :
  ~ In (vote_id v) (map vote_id vs) -> put_vote v vs = vs.
Proof.
  unfold put_vote. induction vs as [|r vs IH]; simpl; [reflexivity|].
  intros H. destruct (Z.eqb_spec (vote_id r) (vote_id v)) as [E|E].
  - exfalso. apply H. left. exact E.
  - f_equal. apply IH. intros Hin. apply H. right. exact Hin.
Qed.

(** Rewriting the polarity of one vote moves its weight and no other. *)
Lemma put_tag_new t ts :
  ~ In (tag_id t) (map tag_id ts) -> put_tag t (ts ++ [t]) = ts ++ [t].
Proof.
  intros H. unfold put_tag. rewrite map_app. cbn [map].
  rewrite Z.eqb_refl. f_equal. apply put_tag_absent. exact H.
Qed.

Lemma put_vote_cons v r vs :
  put_vote v (r :: vs)
  = (if Z.eqb (vote_id r) (vote_id v) then v else r) :: put_vote v vs.
Proof. reflexivity. Qed.

Lemma count_votes_put like tid v b vs :
  NoDup (map vote_id vs) -> In v vs ->
  count_votes like tid (put_vote (with_vote_like v b) vs)
  = count_votes like tid vs - weight like tid v
    + weight like tid (with_vote_like v b).
Proof.
  induction vs as [|r vs IH]; cbn [In map]; [tauto|].
  intros Hnd Hin. inversion Hnd as [|? ? Hr Hvs]; subst.
  rewrite put_vote_cons, !count_votes_cons.
  destruct Hin as [->|Hin].
  - cbn [vote_id with_vote_like]. rewrite Z.eqb_refl.
    rewrite put_vote_absent by exact Hr. lia.
  - cbn [vote_id with_vote_like].
    destruct (Z.eqb_spec (vote_id r) (vote_id v)) as [E|E].
    + exfalso. apply Hr. rewrite E. apply in_map. exact Hin.
    + rewrite (IH Hvs Hin). lia.
Qed.

End Tables.

(** ** The operations with their control flow resolved *)

Section Unfolded.

Variables (pkgname tag ipaddress : string).

Lemma get_or_create_run (s : Session) :
  FASUser_get_or_create ipaddress s
  = (Return (the_user ipaddress s), with_user ipaddress s).
Proof.
  unfold with_user, state_after, the_user, FASUser_get_or_create.
  destruct (find_user ipaddress s); reflexivity.
Qed.

Lemma with_user_tables (s : Session) :
  packages (with_user ipaddress s) = packages s
  /\ tags (with_user ipaddress s) = tags s
  /\ votes (with_user ipaddress s) = votes s
  /\ ratings (with_user ipaddress s) = ratings s.
Proof.
  unfold with_user, state_after, FASUser_get_or_create.
  destruct (find_user ipaddress s); cbn; auto.
Qed.

Lemma with_user_known (s : Session) (u : FASUser) :
  find_user ipaddress s = Some u ->
  the_user ipaddress s = u /\ with_user ipaddress s = s.
Proof.
  unfold with_user, state_after, the_user, FASUser_get_or_create.
  intros ->. split; reflexivity.
Qed.

Lemma find_package_with_user (s : Session) :
  find_package pkgname (with_user ipaddress s) = find_package pkgname s.
Proof.
  unfold find_package.
  destruct (with_user_tables s) as [-> _]. reflexivity.
Qed.

Lemma find_tag_with_user (s : Session) (pid : Z) :
  find_tag pid tag (with_user ipaddress s) = find_tag pid tag s.
Proof.
  unfold find_tag.
  destruct (with_user_tables s) as [_ [-> _]]. reflexivity.
Qed.

Lemma find_vote_with_user (s : Session) (uid tid : Z) :
  find_vote uid tid (with_user ipaddress s) = find_vote uid tid s.
Proof.
  unfold find_vote.
  destruct (with_user_tables s) as [_ [_ [-> _]]]. reflexivity.
Qed.

(** [add_vote], branch by branch. *)
Lemma add_vote_run (vote : bool) (s : Session) :
  add_vote pkgname tag vote ipaddress s
  = let user := the_user ipaddress s in
    let s1 := with_user ipaddress s in
    match resolve_tag pkgname tag s with
    | None => (Raise (TaggerapiException msg_not_found), s1)
    | Some tagobj =>
        match find_vote (user_id user) (tag_id tagobj) s with
        | Some v =>
            if Bool.eqb (vote_like v) vote then
              (Return (msg_not_changed tag pkgname), s1)
            else
              (Return (msg_vote "changed" tag pkgname),
               set_votes (put_vote (with_vote_like v vote) (votes s))
                 (set_tags (put_tag (flipped (vote_like v) tagobj) (tags s))
                           s1))
        | None =>
            (Return (msg_vote "added" tag pkgname),
             set_votes
               (votes s
                ++ [new_vote (user_id user) (tag_id tagobj) vote s])
               (set_tags (put_tag (bumped vote tagobj) (tags s)) s1))
        end
    end.
Proof.
  unfold add_vote, bind at 1. rewrite get_or_create_run.
  cbv zeta. unfold resolve_tag.
  unfold bind at 1, try_except at 1, bind at 1, Package_by_name.
  rewrite find_package_with_user.
  destruct (find_package pkgname s) as [p|]; cbn [one ret raise];
    [|reflexivity].
  unfold Tag_get. rewrite find_tag_with_user.
  destruct (find_tag (pkg_id p) tag s) as [t|]; cbn [one ret raise];
    [|reflexivity].
  unfold bind at 1, try_except at 1, bind at 1, Vote_get.
  rewrite find_vote_with_user.
  destruct (with_user_tables s) as [Hp [Ht [Hv Hr]]].
  destruct (find_vote (user_id (the_user ipaddress s)) (tag_id t) s)
    as [v|]; cbn [one ret raise is_SQLAlchemyError].
  - destruct (Bool.eqb (vote_like v) vote); [reflexivity|].
    unfold Session_flush, bind, Tag_update, Vote_save, ret, set_votes,
      set_tags, flipped. cbn -[next_id put_tag put_vote Py.cat Py.quoted].
    rewrite Ht, Hv. reflexivity.
  - unfold Session_flush, bind, Tag_update, Vote_save, ret, set_votes,
      set_tags, bumped, new_vote. cbn -[next_id put_tag put_vote Py.cat Py.quoted].
    rewrite Ht, Hv. reflexivity.
Qed.

(** [add_tag], branch by branch. *)
Lemma add_tag_run (s : Session) :
  add_tag pkgname tag ipaddress s
  = match find_package pkgname s with
    | None => (Raise NoResultFound, s)
    | Some package =>
        let user := the_user ipaddress s in
        let s1 := with_user ipaddress s in
        match find_tag (pkg_id package) tag s with
        | Some t =>
            (Return (msg_tag_added tag pkgname),
             set_votes (votes s ++ [new_vote (user_id user) (tag_id t) true s])
               (set_tags
                  (put_tag (with_like t (tag_like t + 1)) (tags s)) s1))
        | None =>
            let t := new_tag (pkg_id package) tag s in
            (Return (msg_tag_added tag pkgname),
             set_votes (votes s ++ [new_vote (user_id user) (tag_id t) true s])
               (set_tags (tags s ++ [t]) s1))
        end
    end.
Proof.
  unfold add_tag, bind at 1, Package_by_name.
  destruct (find_package pkgname s) as [p|]; cbn [one ret raise];
    [|reflexivity].
  unfold bind at 1. rewrite get_or_create_run. cbv zeta.
  unfold bind at 1, try_except at 1, bind at 1, Tag_get.
  rewrite find_tag_with_user.
  destruct (with_user_tables s) as [Hp [Ht [Hv Hr]]].
  destruct (find_tag (pkg_id p) tag s) as [t|];
    cbn [one ret raise is_NoResultFound].
  - unfold Session_flush, bind, Tag_update, Vote_save, ret, set_votes,
      set_tags, new_vote, msg_tag_added. cbn -[next_id put_tag put_vote Py.cat Py.quoted].
    rewrite Ht, Hv. reflexivity.
  - unfold Session_flush, bind, Tag_create, Tag_update, Vote_save, ret,
      set_votes, set_tags, new_vote, msg_tag_added.
    cbn -[next_id put_tag put_vote Py.cat Py.quoted new_tag].
    rewrite Ht, Hv.
    rewrite put_tag_new by apply next_id_not_in. reflexivity.
Qed.

(** [add_rating], branch by branch. *)
Lemma add_rating_run (rating : Z) (s : Session) :
  add_rating pkgname rating ipaddress s
  = match find_package pkgname s with
    | None => (Raise NoResultFound, s)
    | Some package =>
        let user := the_user ipaddress s in
        let s1 := with_user ipaddress s in
        (Return (msg_rating_added rating pkgname),
         mkSession (packages s1) (users s1) (tags s1) (votes s1)
           (ratings s
            ++ [mkRating (next_id (map rating_id (ratings s)))
                         (pkg_id package) (user_id user) rating]))
    end.
Proof.
  unfold add_rating, bind at 1, Package_by_name.
  destruct (find_package pkgname s) as [p|]; cbn [one ret raise];
    [|reflexivity].
  unfold bind at 1. rewrite get_or_create_run. cbv zeta.
  destruct (with_user_tables s) as [Hp [Ht [Hv Hr]]].
  unfold bind, Rating_create, ret, msg_rating_added. rewrite Hr.
  reflexivity.
Qed.

End Unfolded.

(** ** Runs on the development data *)

Example tag_then_flip :
  (add_tag "mattd" "daemon" "10.0.0.1" ;;;
   add_vote "mattd" "daemon" false "10.0.0.1") dev_data
  = (Return (msg_vote "changed" "daemon" "mattd"),
     mkSession [mattd] [mkUser 1 "10.0.0.1"] [mkTag 1 1 "daemon" 0 1]
               [mkVote 1 1 1 false] []).
Proof. reflexivity. Qed.

Example tag_then_other_user_votes :
  (add_tag "mattd" "daemon" "10.0.0.1" ;;;
   add_vote "mattd" "daemon" false "10.0.0.2") dev_data
  = (Return (msg_vote "added" "daemon" "mattd"),
     mkSession [mattd] [mkUser 1 "10.0.0.1"; mkUser 2 "10.0.0.2"]
               [mkTag 1 1 "daemon" 1 1]
               [mkVote 1 1 1 true; mkVote 2 2 1 false] []).
Proof. reflexivity. Qed.

Example tag_twice :
  (add_tag "mattd" "daemon" "10.0.0.1" ;;;
   add_tag "mattd" "daemon" "10.0.0.1") dev_data
  = (Return (msg_tag_added "daemon" "mattd"),
     mkSession [mattd] [mkUser 1 "10.0.0.1"] [mkTag 1 1 "daemon" 2 0]
               [mkVote 1 1 1 true; mkVote 2 1 1 true] []).
Proof. reflexivity. Qed.

Example vote_without_tag :
  add_vote "mattd" "daemon" true "10.0.0.1" dev_data
  = (Raise (TaggerapiException msg_not_found),
     mkSession [mattd] [mkUser 1 "10.0.0.1"] [] [] []).
Proof. reflexivity. Qed.

Example rating_message :
  outcome_of (add_rating "mattd" 4 "10.0.0.1") dev_data
  = Return (String.append "Rating "
             (String.append Py.dq
               (String.append "4"
                 (String.append Py.dq
                   (String.append " added to the package "
                     (String.append Py.dq
                       (String.append "mattd" Py.dq))))))).
Proof. reflexivity. Qed.

(** ** Lookups after a write *)

Section Lookups.

(** A row found by a test that the update preserves is found again, in
    its updated form, after UPDATE by primary key. *)
Lemma find_put {A : Type} (key : A -> Z) (P : A -> bool) (x x' : A)
    (l : list A) :
  find P l = Some x -> P x' = true -> key x' = key x ->
  find P (map (fun r => if Z.eqb (key r) (key x') then x' else r) l)
  = Some x'.
Proof.
  intros Hfind Hp Hkey. induction l as [|r l IH]; cbn [find map] in *;
    [discriminate|].
  destruct (P r) eqn:Er.
  - injection Hfind as ->. rewrite Hkey, Z.eqb_refl, Hp. reflexivity.
  - destruct (Z.eqb (key r) (key x')).
    + rewrite Hp. reflexivity.
    + rewrite Er. apply IH. exact Hfind.
Qed.

Lemma find_app_none {A : Type} (P : A -> bool) (l : list A) (x : A) :
  find P l = None -> P x = true -> find P (l ++ [x]) = Some x.
Proof.
  intros Hnone Hp. induction l as [|r l IH]; cbn [find app] in *.
  - rewrite Hp. reflexivity.
  - destruct (P r); [discriminate|]. apply IH. exact Hnone.
Qed.

Lemma find_app_some {A : Type} (P : A -> bool) (l k : list A) (x : A) :
  find P l = Some x -> find P (l ++ k) = Some x.
Proof.
  intros Hsome. induction l as [|r l IH]; cbn [find app] in *;
    [discriminate|].
  destruct (P r); [exact Hsome|]. apply IH. exact Hsome.
Qed.

Lemma find_tag_put (pid : Z) (label : string) (t t' : Tag) (s : Session)
    (vs : list Vote) :
  find_tag pid label s = Some t ->
  tag_id t' = tag_id t -> tag_package_id t' = tag_package_id t ->
  tag_label t' = tag_label t ->
  find_tag pid label (set_votes vs (set_tags (put_tag t' (tags s)) s))
  = Some t'.
Proof.
  unfold find_tag, set_votes, set_tags, put_tag. cbn [tags].
  intros Hfind Hid Hpk Hlb.
  apply (find_put tag_id _ t t' (tags s) Hfind); [|exact Hid].
  apply find_some in Hfind. destruct Hfind as [_ Hp].
  rewrite Hpk, Hlb. exact Hp.
Qed.

Lemma find_vote_put (uid tid : Z) (v : Vote) (b : bool) (s : Session) :
  find_vote uid tid s = Some v ->
  find_vote uid tid (set_votes (put_vote (with_vote_like v b) (votes s)) s)
  = Some (with_vote_like v b).
Proof.
  unfold find_vote, set_votes, put_vote. cbn [votes].
  intros Hfind.
  apply (find_put vote_id _ v (with_vote_like v b) (votes s) Hfind);
    [|reflexivity].
  apply find_some in Hfind. destruct Hfind as [_ Hp]. exact Hp.
Qed.

Lemma find_user_with_user (ip : string) (s : Session) :
  find_user ip (with_user ip s) = Some (the_user ip s).
Proof.
  unfold with_user, state_after, the_user, FASUser_get_or_create.
  destruct (find_user ip s) as [u|] eqn:E; cbn [snd]; [exact E|].
  unfold find_user in *. cbn [users].
  apply find_app_none; [exact E|]. cbn. apply String.eqb_refl.
Qed.

Lemma the_user_with_user (ip : string) (s : Session) :
  the_user ip (with_user ip s) = the_user ip s.
Proof.
  unfold the_user at 1. rewrite find_user_with_user. reflexivity.
Qed.

Lemma with_user_twice (ip : string) (s : Session) :
  with_user ip (with_user ip s) = with_user ip s.
Proof.
  apply (with_user_known ip (with_user ip s) (the_user ip s)).
  apply find_user_with_user.
Qed.

(** A store where a lookup by (user, tag) can only meet one row. *)
Lemma find_vote_only (uid tid : Z) (v : Vote) (s : Session) :
  In v (votes s) -> vote_user_id v = uid -> vote_tag_id v = tid ->
  (forall w, In w (votes s) -> vote_user_id w = uid -> vote_tag_id w = tid ->
             w = v) ->
  find_vote uid tid s = Some v.
Proof.
  intros Hin Hu Ht Hone. unfold find_vote.
  destruct (find _ (votes s)) as [w|] eqn:E.
  - apply find_some in E. destruct E as [Hw Hp].
    apply andb_true_iff in Hp. destruct Hp as [Eu Et].
    apply Z.eqb_eq in Eu, Et. f_equal. apply Hone; assumption.
  - exfalso. pose proof (find_none _ _ E v Hin) as Hp. cbn beta in Hp.
    rewrite Hu, Ht, !Z.eqb_refl in Hp. discriminate.
Qed.

(** [resolve_tag] fails exactly when the name has no package, or the
    package it resolves to has no tag with the label. *)
Lemma resolve_tag_None (pkgname tag : string) (s : Session) :
  resolve_tag pkgname tag s = None <->
  (forall p, In p (packages s) -> pkg_name p <> pkgname)
  \/ (exists p, find_package pkgname s = Some p
                /\ forall t, In t (tags s) -> tag_package_id t = pkg_id p ->
                             tag_label t <> tag).
Proof.
  unfold resolve_tag. split.
  - destruct (find_package pkgname s) as [p|] eqn:Ep.
    + intros Ht. right. exists p. split; [reflexivity|].
      intros t Hin Hpk Hlb. unfold find_tag in Ht.
      pose proof (find_none _ _ Ht t Hin) as Hp. cbn beta in Hp.
      rewrite Hpk, Hlb, Z.eqb_refl, String.eqb_refl in Hp. discriminate.
    + intros _. left. intros p Hin Hname. unfold find_package in Ep.
      pose proof (find_none _ _ Ep p Hin) as Hp. cbn beta in Hp.
      rewrite Hname, String.eqb_refl in Hp. discriminate.
  - intros [Hno|[p [Ep Hno]]].
    + destruct (find_package pkgname s) as [p|] eqn:Ep; [|reflexivity].
      unfold find_package in Ep. apply find_some in Ep.
      destruct Ep as [Hin Hp]. apply String.eqb_eq in Hp.
      exfalso. exact (Hno p Hin Hp).
    + rewrite Ep. unfold find_tag.
      destruct (find _ (tags s)) as [t|] eqn:Et; [|reflexivity].
      apply find_some in Et. destruct Et as [Hin Hp].
      apply andb_true_iff in Hp. destruct Hp as [Hpk Hlb].
      apply Z.eqb_eq in Hpk. apply String.eqb_eq in Hlb.
      exfalso. exact (Hno t Hin Hpk Hlb).
Qed.

End Lookups.

(** ** add_vote *)

(** C3. When the package name has no package, or the package has no tag
    with the label, [add_vote] raises [TaggerapiException] with the message
    'This tag could not be found associated to this package'; the tag table
    (counters included), the vote table, the ratings and the packages are
    what they were, and the state left is the one the get-or-create of the
    user leaves. *)
Theorem add_vote_tag_not_found
    (pkgname tag : string) (vote : bool) (ipaddress : string) (s : Session) :
  resolve_tag pkgname tag s = None ->
  let s' := state_after (add_vote pkgname tag vote ipaddress) s in
  outcome_of (add_vote pkgname tag vote ipaddress) s
  = Raise (TaggerapiException
             "This tag could not be found associated to this package")
  /\ tags s' = tags s
  /\ votes s' = votes s
  /\ ratings s' = ratings s
  /\ packages s' = packages s
  /\ s' = state_after (FASUser_get_or_create ipaddress) s.
Proof.
  intros Hnone. unfold state_after at 1, outcome_of.
  rewrite add_vote_run. cbv zeta. rewrite Hnone. cbn [fst snd].
  destruct (with_user_tables ipaddress s) as [Hp [Ht [Hv Hr]]].
  repeat split; auto.
Qed.

Lemma add_vote_tag_not_found_witness :
  resolve_tag "mattd" "daemon" dev_data = None
  /\ outcome_of (add_vote "mattd" "daemon" true "10.0.0.1") dev_data
     = Raise (TaggerapiException
                "This tag could not be found associated to this package")
  /\ tags (state_after (add_vote "mattd" "daemon" true "10.0.0.1") dev_data)
     = [].
Proof.
  split; [reflexivity|].
  pose proof (add_vote_tag_not_found "mattd" "daemon" true "10.0.0.1" dev_data
                eq_refl) as H.
  cbv zeta in H. destruct H as [Ho [Ht _]]. split; [exact Ho | exact Ht].
Defined.

(** C4. When the requesting user's vote on the resolved tag, as
    [Vote.get] finds it, already has the polarity asked for, [add_vote]
    leaves the whole store as it was (counters, votes and ratings included)
    and returns the "did not changed" message; a second call with the same
    arguments then gives the same outcome and state as the first. *)
Theorem add_vote_same_polarity
    (pkgname tag : string) (vote : bool) (ipaddress : string) (s : Session)
    (u : FASUser) (t : Tag) (v : Vote) :
  find_user ipaddress s = Some u ->
  resolve_tag pkgname tag s = Some t ->
  find_vote (user_id u) (tag_id t) s = Some v ->
  vote_like v = vote ->
  add_vote pkgname tag vote ipaddress s
  = (Return (Py.cat "Your vote on the tag "
              (Py.cat (Py.quoted tag)
                (Py.cat " for the package "
                  (Py.cat (Py.quoted pkgname) " did not changed")))),
     s)
  /\ (add_vote pkgname tag vote ipaddress ;;;
      add_vote pkgname tag vote ipaddress) s
     = add_vote pkgname tag vote ipaddress s.
Proof.
  intros Hu Ht Hv Hlike.
  assert (add_vote pkgname tag vote ipaddress s
          = (Return (msg_not_changed tag pkgname), s)) as Hrun.
  { rewrite add_vote_run. cbv zeta.
    destruct (with_user_known ipaddress s u Hu) as [-> ->].
    rewrite Ht, Hv, Hlike, eqb_reflx. reflexivity. }
  split; [exact Hrun|].
  unfold bind. rewrite Hrun. exact Hrun.
Qed.

Lemma add_vote_same_polarity_witness :
  add_vote "mattd" "daemon" true "10.0.0.1" voted
  = (Return (Py.cat "Your vote on the tag "
              (Py.cat (Py.quoted "daemon")
                (Py.cat " for the package "
                  (Py.cat (Py.quoted "mattd") " did not changed")))),
     voted).
Proof.
  exact (proj1 (add_vote_same_polarity "mattd" "daemon" true "10.0.0.1" voted
                  (mkUser 1 "10.0.0.1") (mkTag 1 1 "daemon" 1 1)
                  (mkVote 1 1 1 true) eq_refl eq_refl eq_refl eq_refl)).
Defined.

Lemma resolve_tag_after (pkgname tag : string) (s s' : Session) (p : Package) :
  find_package pkgname s = Some p -> packages s' = packages s ->
  resolve_tag pkgname tag s' = find_tag (pkg_id p) tag s'.
Proof.
  intros Hp Hpk. unfold resolve_tag.
  assert (find_package pkgname s' = Some p) as ->; [|reflexivity].
  unfold find_package in *. rewrite Hpk. exact Hp.
Qed.

Lemma resolve_tag_Some (pkgname tag : string) (s : Session) (t : Tag) :
  resolve_tag pkgname tag s = Some t ->
  exists p, find_package pkgname s = Some p
            /\ find_tag (pkg_id p) tag s = Some t.
Proof.
  unfold resolve_tag. destruct (find_package pkgname s) as [p|];
    [|discriminate].
  intros H. exists p. split; [reflexivity | exact H].
Qed.

Lemma find_vote_In (uid tid : Z) (s : Session) (v : Vote) :
  find_vote uid tid s = Some v ->
  In v (votes s) /\ vote_user_id v = uid /\ vote_tag_id v = tid.
Proof.
  unfold find_vote. intros H. apply find_some in H. destruct H as [Hin Hp].
  apply andb_true_iff in Hp. destruct Hp as [Eu Et].
  apply Z.eqb_eq in Eu, Et. auto.
Qed.

Lemma find_tag_In (pid : Z) (label : string) (s : Session) (t : Tag) :
  find_tag pid label s = Some t ->
  In t (tags s) /\ tag_package_id t = pid /\ tag_label t = label.
Proof.
  unfold find_tag. intros H. apply find_some in H. destruct H as [Hin Hp].
  apply andb_true_iff in Hp. destruct Hp as [Ep El].
  apply Z.eqb_eq in Ep. apply String.eqb_eq in El. auto.
Qed.

Lemma weight_flip (like : bool) (tid : Z) (v : Vote) (b : bool) :
  vote_tag_id v = tid ->
  weight like tid (with_vote_like v b) = if Bool.eqb b like then 1 else 0.
Proof.
  intros <-. unfold weight. cbn [vote_tag_id vote_like with_vote_like].
  rewrite Z.eqb_refl. reflexivity.
Qed.

Lemma weight_here (like : bool) (tid : Z) (v : Vote) :
  vote_tag_id v = tid ->
  weight like tid v = if Bool.eqb (vote_like v) like then 1 else 0.
Proof.
  intros <-. unfold weight. rewrite Z.eqb_refl. reflexivity.
Qed.

(** C2. When the requesting user's vote on the resolved tag, as
    [Vote.get] finds it, has the polarity opposite to the one asked for,
    [add_vote] returns the "changed" message and leaves a store in which:
    the tag's counter of the old polarity is one less and the counter of the
    new polarity one more; the vote table is the old one with that row's
    polarity rewritten, so it has as many rows as before and the lookup by
    (user, tag) now finds the row with the new polarity; users, packages and
    ratings are untouched.  With unique vote keys the rewrite touches one
    row: the tag has one vote less of the old polarity and one more of the
    new. *)
Theorem add_vote_flip
    (pkgname tag : string) (vote : bool) (ipaddress : string) (s : Session)
    (u : FASUser) (t : Tag) (v : Vote) :
  find_user ipaddress s = Some u ->
  resolve_tag pkgname tag s = Some t ->
  find_vote (user_id u) (tag_id t) s = Some v ->
  vote_like v = negb vote ->
  let s' := state_after (add_vote pkgname tag vote ipaddress) s in
  let t' := if vote
            then with_like (with_dislike t (tag_dislike t - 1)) (tag_like t + 1)
            else with_dislike (with_like t (tag_like t - 1))
                              (tag_dislike t + 1) in
  outcome_of (add_vote pkgname tag vote ipaddress) s
  = Return (Py.cat "Vote changed on the tag "
             (Py.cat (Py.quoted tag)
               (Py.cat " of the package " (Py.quoted pkgname))))
  /\ resolve_tag pkgname tag s' = Some t'
  /\ tags s' = put_tag t' (tags s)
  /\ votes s' = put_vote (with_vote_like v vote) (votes s)
  /\ List.length (votes s') = List.length (votes s)
  /\ find_vote (user_id u) (tag_id t) s' = Some (with_vote_like v vote)
  /\ users s' = users s /\ packages s' = packages s /\ ratings s' = ratings s
  /\ (distinct (map vote_id (votes s)) = true ->
      count_votes (negb vote) (tag_id t) (votes s')
      = count_votes (negb vote) (tag_id t) (votes s) - 1
      /\ count_votes vote (tag_id t) (votes s')
         = count_votes vote (tag_id t) (votes s) + 1).
Proof.
  intros Hu Ht Hv Hlike. cbv zeta.
  destruct (with_user_known ipaddress s u Hu) as [Eu Es].
  assert (add_vote pkgname tag vote ipaddress s
          = (Return (msg_vote "changed" tag pkgname),
             set_votes (put_vote (with_vote_like v vote) (votes s))
               (set_tags (put_tag (flipped (negb vote) t) (tags s)) s)))
    as Hrun.
  { rewrite add_vote_run. cbv zeta. rewrite Eu, Es, Ht, Hv, Hlike.
    destruct vote; reflexivity. }
  assert (flipped (negb vote) t
          = if vote
            then with_like (with_dislike t (tag_dislike t - 1)) (tag_like t + 1)
            else with_dislike (with_like t (tag_like t - 1))
                              (tag_dislike t + 1)) as Hflip.
  { destruct vote; reflexivity. }
  unfold state_after, outcome_of. rewrite Hrun, Hflip. cbn [fst snd].
  destruct (resolve_tag_Some _ _ _ _ Ht) as [p [Hp Hft]].
  destruct (find_vote_In _ _ _ _ Hv) as [Hin [Hvu Hvt]].
  split; [reflexivity|]. split.
  { rewrite (resolve_tag_after pkgname tag s _ p Hp) by reflexivity.
    apply (find_tag_put _ _ t); [exact Hft | | | ]; destruct vote; reflexivity. }
  split; [reflexivity|]. split; [reflexivity|]. split.
  { cbn [votes set_votes]. unfold put_vote. apply length_map. }
  split.
  { pose proof (find_vote_put (user_id u) (tag_id t) v vote
                  (set_tags (put_tag
                     (if vote
                      then with_like (with_dislike t (tag_dislike t - 1))
                                     (tag_like t + 1)
                      else with_dislike (with_like t (tag_like t - 1))
                                        (tag_dislike t + 1)) (tags s)) s))
      as H.
    apply H. exact Hv. }
  split; [reflexivity|]. split; [reflexivity|]. split; [reflexivity|].
  intros Hd. apply distinct_NoDup in Hd. cbn [votes set_votes].
  rewrite !(count_votes_put _ _ v vote (votes s) Hd Hin).
  rewrite !(weight_flip _ _ v vote Hvt), !(weight_here _ _ v Hvt), Hlike.
  destruct vote; cbn; lia.
Qed.

Lemma add_vote_flip_witness :
  outcome_of (add_vote "mattd" "daemon" false "10.0.0.1") voted
  = Return (Py.cat "Vote changed on the tag "
             (Py.cat (Py.quoted "daemon")
               (Py.cat " of the package " (Py.quoted "mattd"))))
  /\ resolve_tag "mattd" "daemon"
       (state_after (add_vote "mattd" "daemon" false "10.0.0.1") voted)
     = Some (mkTag 1 1 "daemon" 0 2).
Proof.
  pose proof (add_vote_flip "mattd" "daemon" false "10.0.0.1" voted
                (mkUser 1 "10.0.0.1") (mkTag 1 1 "daemon" 1 1)
                (mkVote 1 1 1 true) eq_refl eq_refl eq_refl eq_refl) as H.
  cbv zeta in H. destruct H as [Ho [Ht _]]. split; [exact Ho | exact Ht].
Defined.

(** ** add_tag *)

Section AddTag.

Variables (pkgname tag ipaddress : string).

(** One call on a package that already has the tag. *)
Lemma add_tag_existing_step (s : Session) (p : Package) (t : Tag) :
  find_package pkgname s = Some p ->
  find_tag (pkg_id p) tag s = Some t ->
  let s' := state_after (add_tag pkgname tag ipaddress) s in
  outcome_of (add_tag pkgname tag ipaddress) s
  = Return (msg_tag_added tag pkgname)
  /\ find_package pkgname s' = Some p
  /\ find_tag (pkg_id p) tag s' = Some (with_like t (tag_like t + 1))
  /\ tags s' = put_tag (with_like t (tag_like t + 1)) (tags s)
  /\ votes s'
     = votes s ++ [new_vote (user_id (the_user ipaddress s)) (tag_id t)
                            true s]
  /\ the_user ipaddress s' = the_user ipaddress s.
Proof.
  intros Hp Ht. cbv zeta. unfold state_after, outcome_of.
  rewrite add_tag_run, Hp. cbv zeta. rewrite Ht. cbn [fst snd].
  destruct (with_user_tables ipaddress s) as [Epk [Et [Ev Er]]].
  split; [reflexivity|]. split.
  { unfold find_package in *. cbn [packages set_votes set_tags].
    rewrite Epk. exact Hp. }
  split.
  { rewrite <- Et. apply (find_tag_put _ _ t); try reflexivity.
    rewrite find_tag_with_user. exact Ht. }
  split; [reflexivity|]. split; [reflexivity|].
  unfold the_user at 1, find_user. cbn [users set_votes set_tags].
  fold (find_user ipaddress (with_user ipaddress s)).
  rewrite find_user_with_user. reflexivity.
Qed.

Lemma with_like_twice (t : Tag) (a b : Z) :
  with_like (with_like t a) b = with_like t b.
Proof. reflexivity. Qed.

(** [n] calls in a row on a package that already has the tag. *)
Lemma add_tag_existing_times (n : nat) :
  forall (s : Session) (p : Package) (t : Tag),
    find_package pkgname s = Some p ->
    find_tag (pkg_id p) tag s = Some t ->
    let sn := times n (add_tag pkgname tag ipaddress) s in
    find_tag (pkg_id p) tag sn = Some (with_like t (tag_like t + Z.of_nat n))
    /\ exists vs,
         votes sn = votes s ++ vs
         /\ List.length vs = n
         /\ Forall (fun v => vote_user_id v = user_id (the_user ipaddress s)
                             /\ vote_tag_id v = tag_id t
                             /\ vote_like v = true) vs.
Proof.
  induction n as [|n IH]; intros s p t Hp Ht; cbv zeta.
  - cbn [times]. split.
    + rewrite Ht. f_equal. destruct t. unfold with_like. cbn.
      f_equal. lia.
    + exists []. rewrite app_nil_r. repeat split. constructor.
  - cbn [times].
    destruct (add_tag_existing_step s p t Hp Ht)
      as [_ [Hp1 [Ht1 [_ [Hv1 Hu1]]]]].
    destruct (IH _ p _ Hp1 Ht1) as [Htn [vs [Hvs [Hlen Hall]]]].
    split.
    + rewrite Htn, with_like_twice. f_equal. f_equal.
      cbn [tag_like with_like]. lia.
    + exists (new_vote (user_id (the_user ipaddress s)) (tag_id t) true s
              :: vs).
      split; [|split].
      * rewrite Hvs, Hv1, <- app_assoc. reflexivity.
      * cbn [List.length]. rewrite Hlen. reflexivity.
      * constructor; [cbn; auto|].
        rewrite Hu1 in Hall. exact Hall.
Qed.

End AddTag.

(** C5. On a package that already has a tag with the label, [add_tag]
    raises that tag's [like] by one and appends a new vote of polarity like
    for (user, tag), whatever votes the table already holds; so [n] calls in
    a row by the same user raise [like] by [n] and append [n] vote rows for
    the same (user, tag) pair, the user's votes on the tag growing by [n]. *)
Theorem add_tag_existing
    (pkgname tag ipaddress : string) (s : Session) (p : Package) (t : Tag)
    (n : nat) :
  find_package pkgname s = Some p ->
  find_tag (pkg_id p) tag s = Some t ->
  let uid := user_id (the_user ipaddress s) in
  let s1 := state_after (add_tag pkgname tag ipaddress) s in
  let sn := times n (add_tag pkgname tag ipaddress) s in
  (find_tag (pkg_id p) tag s1 = Some (with_like t (tag_like t + 1))
   /\ votes s1
      = votes s ++ [mkVote (next_id (map vote_id (votes s))) uid (tag_id t)
                           true])
  /\ find_tag (pkg_id p) tag sn = Some (with_like t (tag_like t + Z.of_nat n))
  /\ (exists vs,
        votes sn = votes s ++ vs
        /\ List.length vs = n
        /\ Forall (fun v => vote_user_id v = uid /\ vote_tag_id v = tag_id t
                            /\ vote_like v = true) vs)
  /\ Py.len (votes_of uid (tag_id t) (votes sn))
     = Py.len (votes_of uid (tag_id t) (votes s)) + Z.of_nat n.
Proof.
  intros Hp Ht. cbv zeta.
  destruct (add_tag_existing_step pkgname tag ipaddress s p t Hp Ht)
    as [_ [_ [Ht1 [_ [Hv1 _]]]]].
  destruct (add_tag_existing_times pkgname tag ipaddress n s p t Hp Ht)
    as [Htn [vs [Hvs [Hlen Hall]]]].
  split; [split; [exact Ht1 | exact Hv1]|].
  split; [exact Htn|]. split.
  - exists vs. auto.
  - rewrite Hvs. unfold votes_of. rewrite filter_app, len_app. f_equal.
    rewrite <- Hlen. unfold Py.len. f_equal.
    clear Hvs Hlen. induction Hall as [|v vs [Eu [Et _]] _ IH];
      [reflexivity|].
    cbn [filter]. rewrite Eu, Et, !Z.eqb_refl. cbn [andb List.length].
    rewrite IH. reflexivity.
Qed.

Lemma add_tag_existing_witness :
  find_tag 1 "daemon"
    (times 3 (add_tag "mattd" "daemon" "10.0.0.1") voted)
  = Some (mkTag 1 1 "daemon" 4 1)
  /\ Py.len (votes_of 1 1
       (votes (times 3 (add_tag "mattd" "daemon" "10.0.0.1") voted)))
     = 4.
Proof.
  pose proof (add_tag_existing "mattd" "daemon" "10.0.0.1" voted mattd
                (mkTag 1 1 "daemon" 1 1) 3 eq_refl eq_refl) as H.
  cbv zeta in H. destruct H as [_ [Ht [_ Hl]]]. split; [exact Ht | exact Hl].
Defined.

(** C6. On an existing package without a tag of the given label,
    [add_tag] returns its confirmation string and leaves the tag table with
    one more row, the new tag with [like = 1] and [dislike = 0] under a key
    no other tag has, and the vote table with one more row, a vote of
    polarity like by the requesting user on that tag; every older row is
    kept. *)
Theorem add_tag_fresh
    (pkgname tag ipaddress : string) (s : Session) (p : Package) :
  find_package pkgname s = Some p ->
  find_tag (pkg_id p) tag s = None ->
  let s' := state_after (add_tag pkgname tag ipaddress) s in
  let t := mkTag (next_id (map tag_id (tags s))) (pkg_id p) tag 1 0 in
  let u := the_user ipaddress s in
  outcome_of (add_tag pkgname tag ipaddress) s
  = Return (Py.cat "Tag " (Py.cat (Py.quoted tag)
             (Py.cat " added to the package " (Py.quoted pkgname))))
  /\ tags s' = tags s ++ [t]
  /\ ~ In (tag_id t) (map tag_id (tags s))
  /\ find_tag (pkg_id p) tag s' = Some t
  /\ votes s'
     = votes s ++ [mkVote (next_id (map vote_id (votes s))) (user_id u)
                          (tag_id t) true]
  /\ find_user ipaddress s' = Some u.
Proof.
  intros Hp Ht. cbv zeta. unfold state_after, outcome_of.
  rewrite add_tag_run, Hp. cbv zeta. rewrite Ht. cbn [fst snd].
  split; [reflexivity|]. split; [reflexivity|]. split.
  { apply next_id_not_in. }
  split.
  { unfold find_tag in *. cbn [tags set_votes set_tags].
    apply find_app_none; [exact Ht|]. cbn.
    rewrite Z.eqb_refl, String.eqb_refl. reflexivity. }
  split; [reflexivity|].
  unfold find_user. cbn [users set_votes set_tags].
  apply find_user_with_user.
Qed.

Lemma add_tag_fresh_witness :
  tags (state_after (add_tag "mattd" "daemon" "10.0.0.1") dev_data)
  = [mkTag 1 1 "daemon" 1 0]
  /\ votes (state_after (add_tag "mattd" "daemon" "10.0.0.1") dev_data)
     = [mkVote 1 1 1 true].
Proof.
  pose proof (add_tag_fresh "mattd" "daemon" "10.0.0.1" dev_data mattd
                eq_refl eq_refl) as H.
  cbv zeta in H. destruct H as [_ [Ht [_ [_ [Hv _]]]]].
  split; [exact Ht | exact Hv].
Defined.

(** ** add_rating *)

Lemma add_rating_step
    (pkgname : string) (rating : Z) (ipaddress : string) (s : Session)
    (p : Package) :
  find_package pkgname s = Some p ->
  let s' := state_after (add_rating pkgname rating ipaddress) s in
  outcome_of (add_rating pkgname rating ipaddress) s
  = Return (msg_rating_added rating pkgname)
  /\ ratings s'
     = ratings s ++ [mkRating (next_id (map rating_id (ratings s))) (pkg_id p)
                              (user_id (the_user ipaddress s)) rating]
  /\ find_package pkgname s' = Some p
  /\ the_user ipaddress s' = the_user ipaddress s
  /\ tags s' = tags s /\ votes s' = votes s.
Proof.
  intros Hp. cbv zeta. unfold state_after, outcome_of.
  rewrite add_rating_run, Hp. cbv zeta. cbn [fst snd].
  destruct (with_user_tables ipaddress s) as [Epk [Et [Ev Er]]].
  split; [reflexivity|]. split; [reflexivity|]. split.
  { unfold find_package in *. cbn [packages]. rewrite Epk. exact Hp. }
  split.
  { unfold the_user at 1, find_user. cbn [users].
    fold (find_user ipaddress (with_user ipaddress s)).
    rewrite find_user_with_user. reflexivity. }
  split; assumption.
Qed.

(** C9. On an existing package, [add_rating] returns its confirmation
    string and appends one rating row for (user, package, value), the user
    being the one the address resolves to or is created for, under a key no
    other rating has; the rows that were there stay as they were, in their
    places.  Two calls in a row for the same user and package, with values
    [r1] and [r2], leave the old rows followed by two rows of their own, one
    with each value. *)
Theorem add_rating_appends
    (pkgname : string) (r1 r2 : Z) (ipaddress : string) (s : Session)
    (p : Package) :
  find_package pkgname s = Some p ->
  let uid := user_id (the_user ipaddress s) in
  let s1 := state_after (add_rating pkgname r1 ipaddress) s in
  let s2 := state_after (add_rating pkgname r2 ipaddress) s1 in
  let i1 := next_id (map rating_id (ratings s)) in
  let i2 := next_id (map rating_id (ratings s1)) in
  outcome_of (add_rating pkgname r1 ipaddress) s
  = Return (Py.cat "Rating " (Py.cat (Py.quoted (Py.str_int r1))
             (Py.cat " added to the package " (Py.quoted pkgname))))
  /\ find_user ipaddress s1 = Some (the_user ipaddress s)
  /\ ratings s1 = ratings s ++ [mkRating i1 (pkg_id p) uid r1]
  /\ ~ In i1 (map rating_id (ratings s))
  /\ ratings s2
     = ratings s ++ [mkRating i1 (pkg_id p) uid r1;
                     mkRating i2 (pkg_id p) uid r2]
  /\ i1 <> i2.
Proof.
  intros Hp. cbv zeta.
  destruct (add_rating_step pkgname r1 ipaddress s p Hp)
    as [Ho [Hr1 [Hp1 [Hu1 _]]]].
  destruct (add_rating_step pkgname r2 ipaddress _ p Hp1)
    as [_ [Hr2 _]].
  split; [exact Ho|]. split.
  { unfold state_after. rewrite add_rating_run, Hp. cbv zeta.
    unfold find_user. cbn [snd users]. apply find_user_with_user. }
  split; [exact Hr1|]. split.
  { apply next_id_not_in. }
  split.
  { rewrite Hr2, Hu1, Hr1, <- app_assoc. reflexivity. }
  intros E.
  apply (next_id_not_in
           (map rating_id (ratings
                             (state_after (add_rating pkgname r1 ipaddress)
                                          s)))).
  rewrite <- E, Hr1, map_app. apply in_or_app. right. left. reflexivity.
Qed.

Lemma add_rating_appends_witness :
  ratings (state_after (add_rating "mattd" 5 "10.0.0.1")
             (state_after (add_rating "mattd" 2 "10.0.0.1") dev_data))
  = [mkRating 1 1 1 2; mkRating 2 1 1 5].
Proof.
  pose proof (add_rating_appends "mattd" 2 5 "10.0.0.1" dev_data mattd
                eq_refl) as H.
  cbv zeta in H. destruct H as [_ [_ [_ [_ [H _]]]]]. exact H.
Defined.

(** ** How failures reach the caller *)

(** C8, as stated, fails: on a package name the store does not have,
    [add_tag] lets the store's [NoResultFound] through, and that is not a
    [TaggerapiException]. *)
Lemma add_tag_raises_store_error :
  ~ (forall (pkgname tag ipaddress : string) (s : Session) (e : exn),
       outcome_of (add_tag pkgname tag ipaddress) s = Raise e ->
       exists msg, e = TaggerapiException msg).
Proof.
  intros H.
  destruct (H "fedora" "daemon" "10.0.0.1" dev_data NoResultFound eq_refl)
    as [msg E].
  discriminate E.
Qed.

(** C8, amended.  [add_vote] fails only with [TaggerapiException] and its
    message, and does so exactly when package and label resolve to no tag;
    [add_tag] and [add_rating] fail exactly when the package name is absent,
    with the store's [NoResultFound] as it comes and the store untouched;
    [statistics] does not fail. *)
Theorem failures_by_operation
    (pkgname tag : string) (vote : bool) (rating : Z) (ipaddress : string)
    (s : Session) :
  (forall e, outcome_of (add_vote pkgname tag vote ipaddress) s = Raise e <->
             (resolve_tag pkgname tag s = None
              /\ e = TaggerapiException
                       "This tag could not be found associated to this package"))
  /\ (forall e, outcome_of (add_tag pkgname tag ipaddress) s = Raise e <->
                (find_package pkgname s = None /\ e = NoResultFound))
  /\ (forall e, outcome_of (add_rating pkgname rating ipaddress) s = Raise e <->
                (find_package pkgname s = None /\ e = NoResultFound))
  /\ (find_package pkgname s = None ->
      state_after (add_tag pkgname tag ipaddress) s = s
      /\ state_after (add_rating pkgname rating ipaddress) s = s)
  /\ exists d, statistics s = (Return d, s).
Proof.
  unfold outcome_of, state_after.
  rewrite add_vote_run, add_tag_run, add_rating_run. cbv zeta.
  split; [|split; [|split; [|split]]].
  - intros e. destruct (resolve_tag pkgname tag s) as [t|].
    + split.
      * destruct (find_vote _ _ s) as [v|];
          [destruct (Bool.eqb (vote_like v) vote)|]; discriminate.
      * intros [H _]. discriminate H.
    + cbn [fst]. split.
      * intros E. injection E as <-. split; reflexivity.
      * intros [_ ->]. reflexivity.
  - intros e. destruct (find_package pkgname s) as [p|].
    + split.
      * destruct (find_tag (pkg_id p) tag s); discriminate.
      * intros [H _]. discriminate H.
    + cbn [fst]. split.
      * intros E. injection E as <-. split; reflexivity.
      * intros [_ ->]. reflexivity.
  - intros e. destruct (find_package pkgname s) as [p|].
    + split; [discriminate|]. intros [H _]. discriminate H.
    + cbn [fst]. split.
      * intros E. injection E as <-. split; reflexivity.
      * intros [_ ->]. reflexivity.
  - intros ->. split; reflexivity.
  - eexists. reflexivity.
Qed.

Lemma failures_by_operation_witness :
  outcome_of (add_tag "fedora" "daemon" "10.0.0.1") dev_data
  = Raise NoResultFound
  /\ state_after (add_tag "fedora" "daemon" "10.0.0.1") dev_data = dev_data.
Proof.
  destruct (failures_by_operation "fedora" "daemon" true 3 "10.0.0.1" dev_data)
    as [_ [Ht [_ [Hs _]]]].
  split.
  - apply Ht. split; reflexivity.
  - apply Hs. reflexivity.
Defined.

(** ** The counters and the votes *)

Section Counters.

Lemma counters_ok_hold (s : Session) :
  counters_ok s = true <-> counters_hold (tags s) (votes s).
Proof.
  unfold counters_ok, counters_hold. rewrite forallb_forall.
  split; intros H t Hin; specialize (H t Hin).
  - apply andb_true_iff in H. destruct H as [Hl Hd].
    apply Z.eqb_eq in Hl, Hd. auto.
  - destruct H as [Hl Hd]. apply andb_true_iff.
    split; apply Z.eqb_eq; assumption.
Qed.

Lemma keys_ok_hold (s : Session) :
  keys_ok s = true <-> keys_hold (tags s) (votes s).
Proof.
  unfold keys_ok, keys_hold.
  rewrite !andb_true_iff, !distinct_NoDup, forallb_forall.
  assert (forall v, existsb (fun t => Z.eqb (tag_id t) (vote_tag_id v)) (tags s)
                    = true
                    <-> In (vote_tag_id v) (map tag_id (tags s))) as Hfk.
  { intros v. rewrite existsb_exists, in_map_iff.
    split; intros [t [A B]]; exists t.
    - apply Z.eqb_eq in B. auto.
    - split; [exact B | apply Z.eqb_eq; exact A]. }
  split.
  - intros [[Ht Hv] Hf]. repeat split; auto. intros v Hin.
    apply Hfk. apply Hf. exact Hin.
  - intros [Ht [Hv Hf]]. repeat split; auto. intros v Hin.
    apply Hfk. apply Hf. exact Hin.
Qed.

Lemma NoDup_snoc (l : list Z) (x : Z) :
  NoDup l -> ~ In x l -> NoDup (l ++ [x]).
Proof.
  induction l as [|y l IH]; cbn [app]; intros Hnd Hx.
  - constructor; [intros [] | constructor].
  - inversion Hnd as [|? ? Hy Hl]; subst. constructor.
    + intros Hin. apply in_app_or in Hin. destruct Hin as [Hin|[E|[]]].
      * exact (Hy Hin).
      * apply Hx. left. symmetry. exact E.
    + apply IH; [exact Hl|]. intros Hin. apply Hx. right. exact Hin.
Qed.

Lemma count_votes_none (like : bool) (tid : Z) (vs : list Vote) :
  (forall v, In v vs -> vote_tag_id v <> tid) -> count_votes like tid vs = 0.
Proof.
  induction vs as [|v vs IH]; intros H; [reflexivity|].
  rewrite count_votes_cons, IH.
  - unfold weight. destruct (Z.eqb_spec (vote_tag_id v) tid) as [E|E].
    + exfalso. apply (H v); [left; reflexivity | exact E].
    + reflexivity.
  - intros w Hin. apply H. right. exact Hin.
Qed.

Lemma weight_elsewhere (like : bool) (tid : Z) (v : Vote) :
  vote_tag_id v <> tid -> weight like tid v = 0.
Proof.
  intros H. unfold weight.
  destruct (Z.eqb_spec (vote_tag_id v) tid); [contradiction | reflexivity].
Qed.

Lemma count_votes_snoc (like : bool) (tid : Z) (vs : list Vote) (v : Vote) :
  count_votes like tid (vs ++ [v])
  = count_votes like tid vs + weight like tid v.
Proof.
  rewrite count_votes_app, count_votes_cons.
  assert (count_votes like tid [] = 0) as -> by reflexivity. lia.
Qed.

Variables (ts : list Tag) (vs : list Vote).
Hypothesis Hkeys : keys_hold ts vs.
Hypothesis Hcount : counters_hold ts vs.

(** One more vote on a tag of the table, its counter raised. *)
Lemma cast_keeps (t : Tag) (uid : Z) (b : bool) :
  In t ts ->
  let v := mkVote (next_id (map vote_id vs)) uid (tag_id t) b in
  keys_hold (put_tag (bumped b t) ts) (vs ++ [v])
  /\ counters_hold (put_tag (bumped b t) ts) (vs ++ [v]).
Proof.
  intros Hin v. destruct Hkeys as [Kt [Kv Kf]].
  assert (tag_id (bumped b t) = tag_id t) as Eid by (destruct b; reflexivity).
  split.
  - split; [|split].
    + rewrite put_tag_ids. exact Kt.
    + rewrite map_app. apply NoDup_snoc; [exact Kv | apply next_id_not_in].
    + intros w Hw. rewrite put_tag_ids.
      apply in_app_or in Hw. destruct Hw as [Hw|[<-|[]]].
      * apply Kf. exact Hw.
      * cbn [vote_tag_id v]. apply in_map. exact Hin.
  - intros x Hx. rewrite !count_votes_snoc.
    apply put_tag_In in Hx. destruct Hx as [->|[Hx Hne]].
    + rewrite Eid. destruct (Hcount t Hin) as [Hl Hd].
      rewrite !(weight_here _ (tag_id t) v eq_refl).
      cbn [vote_like v]. rewrite <- Hl, <- Hd.
      destruct b; cbn; split; lia.
    + rewrite Eid in Hne. destruct (Hcount x Hx) as [Hl Hd].
      rewrite !weight_elsewhere by (cbn; congruence). lia.
Qed.

(** The polarity of a vote on a tag of the table rewritten, the two
    counters moved. *)
Lemma flip_keeps (t : Tag) (v : Vote) :
  In t ts -> In v vs -> vote_tag_id v = tag_id t ->
  let v' := with_vote_like v (negb (vote_like v)) in
  keys_hold (put_tag (flipped (vote_like v) t) ts) (put_vote v' vs)
  /\ counters_hold (put_tag (flipped (vote_like v) t) ts) (put_vote v' vs).
Proof.
  intros Hin Hv Htid v'. destruct Hkeys as [Kt [Kv Kf]].
  assert (tag_id (flipped (vote_like v) t) = tag_id t) as Eid
    by (destruct (vote_like v); reflexivity).
  split.
  - split; [|split].
    + rewrite put_tag_ids. exact Kt.
    + rewrite put_vote_ids. exact Kv.
    + intros w Hw. rewrite put_tag_ids.
      unfold put_vote in Hw. apply in_map_iff in Hw.
      destruct Hw as [r [E Hr]].
      destruct (Z.eqb (vote_id r) (vote_id v')); subst w.
      * cbn [v' vote_tag_id with_vote_like]. apply Kf. exact Hv.
      * apply Kf. exact Hr.
  - intros x Hx. unfold v'. rewrite !(count_votes_put _ _ v _ vs Kv Hv).
    apply put_tag_In in Hx. destruct Hx as [->|[Hx Hne]].
    + rewrite Eid. destruct (Hcount t Hin) as [Hl Hd].
      rewrite !(weight_flip _ _ v _ Htid), !(weight_here _ _ v Htid).
      rewrite <- Hl, <- Hd. destruct (vote_like v); cbn; split; lia.
    + rewrite Eid in Hne. destruct (Hcount x Hx) as [Hl Hd].
      rewrite !weight_elsewhere
        by (cbn [vote_tag_id with_vote_like]; congruence).
      lia.
Qed.

(** A new tag with its first vote. *)
Lemma tag_keeps (pid : Z) (label : string) (uid : Z) :
  let t := mkTag (next_id (map tag_id ts)) pid label 1 0 in
  let v := mkVote (next_id (map vote_id vs)) uid (tag_id t) true in
  keys_hold (ts ++ [t]) (vs ++ [v]) /\ counters_hold (ts ++ [t]) (vs ++ [v]).
Proof.
  intros t v. destruct Hkeys as [Kt [Kv Kf]].
  assert (forall w, In w vs -> vote_tag_id w <> tag_id t) as Hfresh.
  { intros w Hw E. apply (next_id_not_in (map tag_id ts)).
    cbn [t tag_id] in E. rewrite <- E. apply Kf. exact Hw. }
  split.
  - split; [|split].
    + rewrite map_app. apply NoDup_snoc; [exact Kt | apply next_id_not_in].
    + rewrite map_app. apply NoDup_snoc; [exact Kv | apply next_id_not_in].
    + intros w Hw. rewrite map_app. apply in_or_app.
      apply in_app_or in Hw. destruct Hw as [Hw|[<-|[]]].
      * left. apply Kf. exact Hw.
      * right. left. reflexivity.
  - intros x Hx. rewrite !count_votes_snoc.
    apply in_app_or in Hx. destruct Hx as [Hx|[<-|[]]].
    + destruct (Hcount x Hx) as [Hl Hd].
      assert (tag_id t <> tag_id x) as Hne.
      { intros E. apply (next_id_not_in (map tag_id ts)).
        cbn [t tag_id] in E. rewrite E. apply in_map. exact Hx. }
      rewrite !weight_elsewhere by (cbn [vote_tag_id v]; exact Hne). lia.
    + rewrite !(count_votes_none _ _ vs Hfresh).
      rewrite !(weight_here _ (tag_id t) v eq_refl). cbn. split; reflexivity.
Qed.

End Counters.

Section Preservation.

Variables (pkgname tag ipaddress : string) (s : Session).
Hypothesis Hkeys : keys_hold (tags s) (votes s).
Hypothesis Hcount : counters_hold (tags s) (votes s).

Lemma add_tag_keeps :
  let s' := state_after (add_tag pkgname tag ipaddress) s in
  keys_hold (tags s') (votes s') /\ counters_hold (tags s') (votes s').
Proof.
  cbv zeta. unfold state_after. rewrite add_tag_run.
  destruct (find_package pkgname s) as [p|]; [|split; assumption].
  cbv zeta. destruct (find_tag (pkg_id p) tag s) as [t|] eqn:Et;
    cbn [snd tags votes set_votes set_tags].
  - apply find_tag_In in Et. destruct Et as [Hin _].
    exact (cast_keeps (tags s) (votes s) Hkeys Hcount t
             (user_id (the_user ipaddress s)) true Hin).
  - exact (tag_keeps (tags s) (votes s) Hkeys Hcount (pkg_id p) tag
             (user_id (the_user ipaddress s))).
Qed.

Lemma add_vote_keeps (vote : bool) :
  let s' := state_after (add_vote pkgname tag vote ipaddress) s in
  keys_hold (tags s') (votes s') /\ counters_hold (tags s') (votes s').
Proof.
  cbv zeta. unfold state_after. rewrite add_vote_run. cbv zeta.
  destruct (with_user_tables ipaddress s) as [_ [Et [Ev _]]].
  destruct (resolve_tag pkgname tag s) as [t|] eqn:Er;
    [|cbn [snd]; rewrite Et, Ev; split; assumption].
  apply resolve_tag_Some in Er. destruct Er as [p [_ Hft]].
  apply find_tag_In in Hft. destruct Hft as [Hin _].
  destruct (find_vote (user_id (the_user ipaddress s)) (tag_id t) s)
    as [v|] eqn:Ef.
  - apply find_vote_In in Ef. destruct Ef as [Hv [_ Htid]].
    destruct (Bool.eqb (vote_like v) vote) eqn:Eb;
      [cbn [snd]; rewrite Et, Ev; split; assumption|].
    cbn [snd tags votes set_votes set_tags].
    assert (vote = negb (vote_like v)) as ->.
    { destruct vote, (vote_like v); try reflexivity; discriminate Eb. }
    exact (flip_keeps (tags s) (votes s) Hkeys Hcount t v Hin Hv Htid).
  - cbn [snd tags votes set_votes set_tags].
    exact (cast_keeps (tags s) (votes s) Hkeys Hcount t
             (user_id (the_user ipaddress s)) vote Hin).
Qed.

End Preservation.

(** C1. In a store whose keys are sound (unique tag keys, unique vote
    keys, every vote on a tag of the table) and where every tag's [like]
    counter is the number of its like votes and its [dislike] counter the
    number of its dislike votes, [add_tag] and [add_vote] leave a store with
    the same two properties, whatever their arguments and whether they return
    or raise; the empty store has both. *)
Theorem counters_match_votes
    (pkgname tag : string) (vote : bool) (ipaddress : string) (s : Session) :
  keys_ok s = true -> counters_ok s = true ->
  (keys_ok (state_after (add_tag pkgname tag ipaddress) s) = true
   /\ counters_ok (state_after (add_tag pkgname tag ipaddress) s) = true)
  /\ (keys_ok (state_after (add_vote pkgname tag vote ipaddress) s) = true
      /\ counters_ok (state_after (add_vote pkgname tag vote ipaddress) s)
         = true)
  /\ keys_ok empty = true /\ counters_ok empty = true.
Proof.
  intros Hk Hc. apply keys_ok_hold in Hk. apply counters_ok_hold in Hc.
  split; [|split; [|split; reflexivity]].
  - rewrite keys_ok_hold, counters_ok_hold.
    exact (add_tag_keeps pkgname tag ipaddress s Hk Hc).
  - rewrite keys_ok_hold, counters_ok_hold.
    exact (add_vote_keeps pkgname tag ipaddress s Hk Hc vote).
Qed.

Lemma counters_match_votes_witness :
  (keys_ok voted = true /\ counters_ok voted = true)
  /\ counters_ok (state_after (add_tag "mattd" "daemon" "10.0.0.1") voted)
     = true
  /\ counters_ok (state_after (add_vote "mattd" "daemon" false "10.0.0.1")
                    voted) = true.
Proof.
  split; [split; reflexivity|].
  destruct (counters_match_votes "mattd" "daemon" false "10.0.0.1" voted
              eq_refl eq_refl) as [[_ Ht] [[_ Hv] _]].
  split; [exact Ht | exact Hv].
Defined.

(** C10. In a store where every tag's counters are the numbers of its
    votes, [add_vote] leaves no counter below zero; for when it takes the
    flip branch (the user's vote on the tag is found with the opposite
    polarity), the counter it decrements is at least 1 beforehand. *)
Theorem add_vote_counters_nonneg
    (pkgname tag : string) (vote : bool) (ipaddress : string) (s : Session) :
  counters_ok s = true ->
  (forall t, In t (tags (state_after (add_vote pkgname tag vote ipaddress) s)) ->
             0 <= tag_like t /\ 0 <= tag_dislike t)
  /\ (forall t v,
        resolve_tag pkgname tag s = Some t ->
        find_vote (user_id (the_user ipaddress s)) (tag_id t) s = Some v ->
        vote_like v = negb vote ->
        1 <= (if vote_like v then tag_like t else tag_dislike t)).
Proof.
  rewrite counters_ok_hold. intros Hc.
  assert (forall t, In t (tags s) -> 0 <= tag_like t /\ 0 <= tag_dislike t)
    as Hpos.
  { intros t Hin. destruct (Hc t Hin) as [-> ->].
    split; apply count_votes_nonneg. }
  assert (forall t v,
            resolve_tag pkgname tag s = Some t ->
            find_vote (user_id (the_user ipaddress s)) (tag_id t) s = Some v ->
            1 <= (if vote_like v then tag_like t else tag_dislike t)) as Hone.
  { intros t v Er Ef.
    apply resolve_tag_Some in Er. destruct Er as [p [_ Hft]].
    apply find_tag_In in Hft. destruct Hft as [Hin _].
    apply find_vote_In in Ef. destruct Ef as [Hv [_ Htid]].
    destruct (Hc t Hin) as [Hl Hd].
    pose proof (count_votes_In (vote_like v) (tag_id t) v (votes s) Hv) as Hw.
    rewrite (weight_here _ _ v Htid), eqb_reflx in Hw.
    destruct (vote_like v); lia. }
  split; [|intros t v Er Ef _; exact (Hone t v Er Ef)].
  intros x. unfold state_after. rewrite add_vote_run. cbv zeta.
  destruct (with_user_tables ipaddress s) as [_ [Et [Ev _]]].
  destruct (resolve_tag pkgname tag s) as [t|] eqn:Er;
    [|cbn [snd]; rewrite Et; apply Hpos].
  destruct (find_vote (user_id (the_user ipaddress s)) (tag_id t) s)
    as [v|] eqn:Ef.
  - destruct (Bool.eqb (vote_like v) vote);
      [cbn [snd]; rewrite Et; apply Hpos|].
    cbn [snd tags set_votes set_tags]. intros Hx.
    apply put_tag_In in Hx. destruct Hx as [->|[Hx _]]; [|apply Hpos; exact Hx].
    specialize (Hone t v eq_refl Ef).
    apply resolve_tag_Some in Er. destruct Er as [p [_ Hft]].
    apply find_tag_In in Hft. destruct Hft as [Hin _].
    destruct (Hpos t Hin) as [Hl Hd].
    unfold flipped. destruct (vote_like v); cbn; lia.
  - cbn [snd tags set_votes set_tags]. intros Hx.
    apply put_tag_In in Hx. destruct Hx as [->|[Hx _]]; [|apply Hpos; exact Hx].
    apply resolve_tag_Some in Er. destruct Er as [p [_ Hft]].
    apply find_tag_In in Hft. destruct Hft as [Hin _].
    destruct (Hpos t Hin) as [Hl Hd].
    unfold bumped. destruct vote; cbn; lia.
Qed.

Lemma add_vote_counters_nonneg_witness :
  counters_ok voted = true
  /\ 1 <= tag_like (mkTag 1 1 "daemon" 1 1)
  /\ (forall t,
        In t (tags (state_after (add_vote "mattd" "daemon" false "10.0.0.1")
                      voted)) ->
        0 <= tag_like t /\ 0 <= tag_dislike t).
Proof.
  split; [reflexivity|].
  destruct (add_vote_counters_nonneg "mattd" "daemon" false "10.0.0.1" voted
              eq_refl) as [Hall Hone].
  split; [|exact Hall].
  exact (Hone (mkTag 1 1 "daemon" 1 1) (mkVote 1 1 1 true)
           eq_refl eq_refl eq_refl).
Defined.

(** ** statistics *)

Section Dicts.

Context {V : Type}.

Lemma dict_set_absent (k : string) (v : V) (d : Py.dict V) :
  ~ In k (map fst d) -> Py.dict_set k v d = d ++ [(k, v)].
Proof.
  induction d as [|[k' v'] d IH]; cbn [Py.dict_set map fst app In];
    intros H; [reflexivity|].
  destruct (String.eqb_spec k' k) as [E|E].
  - exfalso. apply H. left. exact E.
  - f_equal. apply IH. intros Hin. apply H. right. exact Hin.
Qed.

Lemma dict_of_from (l acc : list (string * V)) :
  NoDup (map fst (acc ++ l)) ->
  fold_left (fun d kv => Py.dict_set (fst kv) (snd kv) d) l acc = acc ++ l.
Proof.
  revert acc. induction l as [|[k v] l IH]; intros acc Hnd; cbn [fold_left].
  - rewrite app_nil_r. reflexivity.
  - cbn [fst snd]. rewrite dict_set_absent.
    + rewrite IH; rewrite <- app_assoc; [reflexivity | exact Hnd].
    + rewrite map_app in Hnd. cbn [map fst] in Hnd.
      apply NoDup_remove_2 in Hnd. intros Hin. apply Hnd.
      apply in_or_app. left. exact Hin.
Qed.

(** With one pair per key, [dict(pairs)] holds the pairs as given. *)
Lemma dict_of_distinct (l : list (string * V)) :
  NoDup (map fst l) -> Py.dict_of l = l.
Proof. intros H. unfold Py.dict_of. rewrite dict_of_from; auto. Qed.

End Dicts.

Section Sums.

Lemma sum_from (l : list Z) (a : Z) : fold_left Z.add l a = a + Py.sum l.
Proof.
  unfold Py.sum. revert a. induction l as [|x l IH]; intros a; cbn [fold_left].
  - lia.
  - rewrite (IH (a + x)), (IH (0 + x)). lia.
Qed.

Lemma sum_cons (x : Z) (l : list Z) : Py.sum (x :: l) = x + Py.sum l.
Proof. unfold Py.sum at 1. cbn [fold_left]. rewrite sum_from. lia. Qed.

Lemma len_cons {A : Type} (x : A) (l : list A) : Py.len (x :: l) = 1 + Py.len l.
Proof. unfold Py.len. cbn [List.length]. lia. Qed.

Variables (A : Type) (cnt : A -> Z).
Hypothesis cnt_nonneg : forall x, 0 <= cnt x.

Lemma len_zero_values (l : list A) :
  Py.len (filter (fun v => Z.eqb v 0) (map cnt l))
  = Py.len (filter (fun x => Z.eqb (cnt x) 0) l).
Proof.
  induction l as [|x l IH]; [reflexivity|]. cbn [map filter].
  destruct (Z.eqb (cnt x) 0); [rewrite !len_cons, IH; reflexivity | exact IH].
Qed.

Lemma len_split (l : list A) :
  Py.len l - Py.len (filter (fun x => Z.eqb (cnt x) 0) l)
  = Py.len (filter (fun x => Z.ltb 0 (cnt x)) l).
Proof.
  induction l as [|x l IH]; [reflexivity|]. cbn [filter].
  pose proof (cnt_nonneg x) as Hx.
  destruct (Z.eqb_spec (cnt x) 0) as [E|E];
    destruct (Z.ltb_spec 0 (cnt x)) as [L|L]; try lia;
    rewrite !len_cons; lia.
Qed.

Lemma sum_nonzero (l : list A) :
  Py.sum (map cnt l)
  = Py.sum (map cnt (filter (fun x => Z.ltb 0 (cnt x)) l)).
Proof.
  induction l as [|x l IH]; [reflexivity|]. cbn [map filter].
  pose proof (cnt_nonneg x) as Hx. rewrite sum_cons.
  destruct (Z.ltb_spec 0 (cnt x)) as [L|L].
  - cbn [map]. rewrite sum_cons, IH. reflexivity.
  - rewrite IH. lia.
Qed.

End Sums.

(** C7. With package names unique, [statistics] returns, without
    touching the store, a mapping whose only key is 'summary', holding six
    numbers: the number of packages; the number of distinct tag labels; the
    number of packages without tags; the number of packages with at least one
    tag; the total number of package tags divided by the number of packages,
    or 0 when there is no package; and the number of tags of the packages that
    have some divided by the number of such packages, or 0 when there is none.
    On a store without packages (and so without tags) every field is 0.  On
    packages {A: 3 tags, B: 0 tags} it gives 2 packages, 1 without tags, 1
    with tags, averages 1.5 and 3.0. *)
Theorem statistics_summary (s : Session) :
  NoDup (map pkg_name (packages s)) ->
  let cnt := fun p => Py.len (Package_tags s p) in
  let tagged := filter (fun p => Z.ltb 0 (cnt p)) (packages s) in
  let n_packs := Py.len (packages s) in
  let no_tags := Py.len (filter (fun p => Z.eqb (cnt p) 0) (packages s)) in
  let with_tags := Py.len tagged in
  (statistics s
   = (Return
        [("summary",
          [("total_packages", Py.Int n_packs);
           ("total_unique_tags",
            Py.Int (Py.len (nodup string_dec (map tag_label (tags s)))));
           ("no_tags", Py.Int no_tags);
           ("with_tags", Py.Int with_tags);
           ("tags_per_package",
            if Z.eqb n_packs 0 then Py.Int 0
            else Py.Float (Py.div_float (Py.sum (map cnt (packages s)))
                                        n_packs));
           ("tags_per_package_no_zeroes",
            if Z.eqb with_tags 0 then Py.Int 0
            else Py.Float (Py.div_float (Py.sum (map cnt tagged))
                                        with_tags))])],
      s))
  /\ n_packs = no_tags + with_tags
  /\ (packages s = [] ->
      (forall t, In t (tags s) ->
                 exists p, In p (packages s) /\ pkg_id p = tag_package_id t) ->
      statistics s = (Return zero_summary, s))
  /\ statistics store_AB
     = (Return
          [("summary",
            [("total_packages", Py.Int 2);
             ("total_unique_tags", Py.Int 3);
             ("no_tags", Py.Int 1);
             ("with_tags", Py.Int 1);
             ("tags_per_package", Py.Float 1.5%float);
             ("tags_per_package_no_zeroes", Py.Float 3%float)])],
        store_AB).
Proof.
  intros Hnd. cbv zeta.
  assert (forall p, 0 <= Py.len (Package_tags s p)) as Hcnt
    by (intros p; apply len_nonneg).
  split; [|split; [|split]].
  - unfold statistics, bind, Package_all, Tag_count_unique_label, ret,
      distinct_labels.
    rewrite dict_of_distinct by (rewrite map_map; exact Hnd).
    unfold Py.values. rewrite map_map. cbn [snd].
    assert (Py.len (map (fun p => (pkg_name p, Py.len (Package_tags s p)))
                        (packages s))
            = Py.len (packages s)) as ->.
    { unfold Py.len. rewrite length_map. reflexivity. }
    rewrite (len_zero_values _ (fun p => Py.len (Package_tags s p))).
    rewrite (len_split _ _ Hcnt).
    rewrite <- (sum_nonzero _ _ Hcnt). reflexivity.
  - rewrite <- (len_split _ (fun p => Py.len (Package_tags s p)) Hcnt). lia.
  - intros Hp Hfk.
    assert (tags s = []) as Ht.
    { destruct (tags s) as [|t l]; [reflexivity|].
      destruct (Hfk t (or_introl eq_refl)) as [p [Hin _]].
      rewrite Hp in Hin. destruct Hin. }
    unfold statistics, bind, Package_all, Tag_count_unique_label, ret,
      distinct_labels.
    rewrite Hp, Ht. reflexivity.
  - vm_compute. reflexivity.
Qed.

Lemma statistics_summary_witness :
  NoDup (map pkg_name (packages dev_data))
  /\ statistics dev_data
     = (Return
          [("summary",
            [("total_packages", Py.Int 1);
             ("total_unique_tags", Py.Int 0);
             ("no_tags", Py.Int 1);
             ("with_tags", Py.Int 0);
             ("tags_per_package", Py.Float 0%float);
             ("tags_per_package_no_zeroes", Py.Int 0)])],
        dev_data).
Proof.
  assert (NoDup (map pkg_name (packages dev_data))) as Hnd.
  { cbn. constructor; [intros [] | constructor]. }
  split; [exact Hnd|].
  pose proof (statistics_summary dev_data Hnd) as H.
  cbv zeta in H. destruct H as [H _]. rewrite H. vm_compute. reflexivity.
Defined.

(** ** More on add_vote *)

Section Settled.

Variables (ipaddress : string) (s s' : Session).
Hypothesis Husers : users s' = users (with_user ipaddress s).

(** Once the user of an address is in the store, the address resolves to
    that user and the get-or-create writes nothing. *)
Lemma settled_find : find_user ipaddress s' = Some (the_user ipaddress s).
Proof.
  unfold find_user. rewrite Husers. apply find_user_with_user.
Qed.

Lemma settled_user : the_user ipaddress s' = the_user ipaddress s.
Proof. exact (proj1 (with_user_known ipaddress s' _ settled_find)). Qed.

Lemma settled_state : with_user ipaddress s' = s'.
Proof. exact (proj2 (with_user_known ipaddress s' _ settled_find)). Qed.

End Settled.

(** [add_vote] on a store that already has the user. *)
Lemma add_vote_run_settled
    (pkgname tag : string) (vote : bool) (ipaddress : string)
    (s s' : Session) :
  users s' = users (with_user ipaddress s) ->
  add_vote pkgname tag vote ipaddress s'
  = match resolve_tag pkgname tag s' with
    | None => (Raise (TaggerapiException msg_not_found), s')
    | Some tagobj =>
        match find_vote (user_id (the_user ipaddress s)) (tag_id tagobj) s'
        with
        | Some v =>
            if Bool.eqb (vote_like v) vote then
              (Return (msg_not_changed tag pkgname), s')
            else
              (Return (msg_vote "changed" tag pkgname),
               set_votes (put_vote (with_vote_like v vote) (votes s'))
                 (set_tags (put_tag (flipped (vote_like v) tagobj) (tags s'))
                           s'))
        | None =>
            (Return (msg_vote "added" tag pkgname),
             set_votes
               (votes s'
                ++ [new_vote (user_id (the_user ipaddress s)) (tag_id tagobj)
                             vote s'])
               (set_tags (put_tag (bumped vote tagobj) (tags s')) s'))
        end
    end.
Proof.
  intros Hu. rewrite add_vote_run. cbv zeta.
  rewrite (settled_user ipaddress s s' Hu), (settled_state ipaddress s s' Hu).
  reflexivity.
Qed.


Lemma bumped_same (vote : bool) (t : Tag) :
  tag_id (bumped vote t) = tag_id t
  /\ tag_package_id (bumped vote t) = tag_package_id t
  /\ tag_label (bumped vote t) = tag_label t.
Proof. destruct vote; repeat split. Qed.

Lemma flipped_same (old : bool) (t : Tag) :
  tag_id (flipped old t) = tag_id t
  /\ tag_package_id (flipped old t) = tag_package_id t
  /\ tag_label (flipped old t) = tag_label t.
Proof. destruct old; repeat split. Qed.

(** The tag resolved before a write of its counters is resolved, with the
    new counters, after it. *)
Lemma resolve_tag_put (pkgname tag ipaddress : string) (s : Session)
    (t t' : Tag) (vs : list Vote) :
  resolve_tag pkgname tag s = Some t ->
  tag_id t' = tag_id t -> tag_package_id t' = tag_package_id t ->
  tag_label t' = tag_label t ->
  resolve_tag pkgname tag
    (set_votes vs (set_tags (put_tag t' (tags s)) (with_user ipaddress s)))
  = Some t'.
Proof.
  intros Hr Hid Hpk Hlb.
  destruct (resolve_tag_Some _ _ _ _ Hr) as [p [Hp Hft]].
  destruct (with_user_tables ipaddress s) as [Epk [Et _]].
  rewrite (resolve_tag_after pkgname tag s _ p Hp) by exact Epk.
  rewrite <- Et. apply (find_tag_put _ _ t); try assumption.
  rewrite find_tag_with_user. exact Hft.
Qed.

(** X1. When package and label resolve to a tag on which the requesting
    user has no vote, [add_vote] returns the "added" message, appends one vote
    row of the polarity asked for under a fresh key, raises the tag's counter
    of that polarity by one and leaves the other counter; the user is in the
    store afterwards, and packages and ratings are untouched. *)
Theorem add_vote_first_vote
    (pkgname tag : string) (vote : bool) (ipaddress : string) (s : Session)
    (t : Tag) :
  resolve_tag pkgname tag s = Some t ->
  find_vote (user_id (the_user ipaddress s)) (tag_id t) s = None ->
  let s' := state_after (add_vote pkgname tag vote ipaddress) s in
  let u := the_user ipaddress s in
  let t' := if vote then with_like t (tag_like t + 1)
            else with_dislike t (tag_dislike t + 1) in
  let v := mkVote (next_id (map vote_id (votes s))) (user_id u) (tag_id t)
                  vote in
  outcome_of (add_vote pkgname tag vote ipaddress) s
  = Return (Py.cat "Vote added on the tag "
             (Py.cat (Py.quoted tag)
               (Py.cat " of the package " (Py.quoted pkgname))))
  /\ votes s' = votes s ++ [v]
  /\ ~ In (vote_id v) (map vote_id (votes s))
  /\ tags s' = put_tag t' (tags s)
  /\ resolve_tag pkgname tag s' = Some t'
  /\ find_vote (user_id u) (tag_id t) s' = Some v
  /\ find_user ipaddress s' = Some u
  /\ packages s' = packages s /\ ratings s' = ratings s.
Proof.
  intros Hr Hv. cbv zeta. unfold state_after, outcome_of.
  rewrite add_vote_run. cbv zeta. rewrite Hr, Hv. cbn [fst snd].
  destruct (with_user_tables ipaddress s) as [Epk [Et [Ev Er]]].
  destruct (bumped_same vote t) as [Bi [Bp Bl]].
  split; [reflexivity|]. split; [reflexivity|]. split.
  { apply next_id_not_in. }
  split; [reflexivity|]. split.
  { apply (resolve_tag_put _ _ _ _ t); assumption. }
  split.
  { unfold find_vote in *. cbn [votes set_votes].
    apply find_app_none; [exact Hv|]. cbn. rewrite !Z.eqb_refl. reflexivity. }
  split.
  { unfold find_user. cbn [users set_votes set_tags].
    apply find_user_with_user. }
  split; assumption.
Qed.

Lemma add_vote_first_vote_witness :
  state_after (add_vote "mattd" "daemon" false "10.0.0.3") voted
  = mkSession [mattd]
      [mkUser 1 "10.0.0.1"; mkUser 2 "10.0.0.2"; mkUser 3 "10.0.0.3"]
      [mkTag 1 1 "daemon" 1 2]
      [mkVote 1 1 1 true; mkVote 2 2 1 false; mkVote 3 3 1 false] []
  /\ find_vote 3 1 (state_after (add_vote "mattd" "daemon" false "10.0.0.3")
                      voted)
     = Some (mkVote 3 3 1 false).
Proof.
  split; [reflexivity|].
  pose proof (add_vote_first_vote "mattd" "daemon" false "10.0.0.3" voted
                (mkTag 1 1 "daemon" 1 1) eq_refl eq_refl) as H.
  cbv zeta in H. destruct H as [_ [_ [_ [_ [_ [H _]]]]]]. exact H.
Defined.



(** ** Rows under unique keys *)

Section Keyed.

Context {A : Type} (key : A -> Z).

Lemma key_inj (l : list A) (a b : A) :
  NoDup (map key l) -> In a l -> In b l -> key a = key b -> a = b.
Proof.
  induction l as [|r l IH]; cbn [map In]; [tauto|].
  intros Hnd Ha Hb E. inversion Hnd as [|? ? Hr Hl]; subst.
  destruct Ha as [->|Ha]; destruct Hb as [->|Hb]; auto.
  - exfalso. apply Hr. rewrite E. apply in_map. exact Hb.
  - exfalso. apply Hr. rewrite <- E. apply in_map. exact Ha.
Qed.

(** What the rows show through [f] is not changed by an update that keeps
    [f] of the updated row. *)
Lemma map_put {B : Type} (f : A -> B) (x x' : A) (l : list A) :
  NoDup (map key l) -> In x l -> key x' = key x -> f x' = f x ->
  map f (map (fun r => if Z.eqb (key r) (key x') then x' else r) l)
  = map f l.
Proof.
  intros Hnd Hin Hk Hf. rewrite map_map. apply map_ext_in. intros r Hr.
  destruct (Z.eqb_spec (key r) (key x')) as [E|E]; [|reflexivity].
  rewrite Hf. f_equal. symmetry.
  apply (key_inj l r x Hnd Hr Hin). congruence.
Qed.

(** Writing the old row back undoes an update. *)
Lemma put_back (x x' : A) (l : list A) :
  NoDup (map key l) -> In x l -> key x' = key x ->
  map (fun r => if Z.eqb (key r) (key x) then x else r)
      (map (fun r => if Z.eqb (key r) (key x') then x' else r) l)
  = l.
Proof.
  intros Hnd Hin Hk. rewrite map_map. rewrite <- (map_id l) at 2.
  apply map_ext_in. intros r Hr.
  destruct (Z.eqb_spec (key r) (key x')) as [E|E].
  - rewrite Hk, Z.eqb_refl. symmetry.
    apply (key_inj l r x Hnd Hr Hin). congruence.
  - destruct (Z.eqb_spec (key r) (key x)) as [E'|E']; [|reflexivity].
    exfalso. apply E. congruence.
Qed.

(** A search that the updated row fails, before and after, does not see
    the update. *)
Lemma find_put_other (P : A -> bool) (x' : A) (l : list A) :
  (forall r, In r l -> key r = key x' -> P r = false) -> P x' = false ->
  find P (map (fun r => if Z.eqb (key r) (key x') then x' else r) l)
  = find P l.
Proof.
  intros Hold Hnew. induction l as [|r l IH]; [reflexivity|].
  cbn [map find].
  assert (find P (map (fun r0 => if Z.eqb (key r0) (key x') then x' else r0) l)
          = find P l) as IH'.
  { apply IH. intros r0 Hr0. apply Hold. right. exact Hr0. }
  destruct (Z.eqb_spec (key r) (key x')) as [E|E].
  - rewrite Hnew, (Hold r (or_introl eq_refl) E). exact IH'.
  - destruct (P r); [reflexivity | exact IH'].
Qed.

Lemma find_app_other (P : A -> bool) (x : A) (l : list A) :
  P x = false -> find P (l ++ [x]) = find P l.
Proof.
  intros Hx. induction l as [|r l IH]; cbn [app find].
  - rewrite Hx. reflexivity.
  - destruct (P r); [reflexivity | exact IH].
Qed.

End Keyed.

Lemma NoDup_last {A : Type} (l : list A) (x : A) :
  NoDup l -> ~ In x l -> NoDup (l ++ [x]).
Proof.
  induction l as [|y l IH]; cbn [app]; intros Hnd Hx.
  - constructor; [intros [] | constructor].
  - inversion Hnd as [|? ? Hy Hl]; subst. constructor.
    + intros Hin. apply in_app_or in Hin. destruct Hin as [Hin|[E|[]]].
      * exact (Hy Hin).
      * apply Hx. left. symmetry. exact E.
    + apply IH; [exact Hl|]. intros Hin. apply Hx. right. exact Hin.
Qed.

Lemma flipped_back (b : bool) (t : Tag) : flipped (negb b) (flipped b t) = t.
Proof.
  destruct t as [i p l a d]. destruct b; unfold flipped, with_like,
    with_dislike; cbn; f_equal; lia.
Qed.

Lemma with_vote_like_back (v : Vote) (b : bool) :
  with_vote_like (with_vote_like v b) (vote_like v) = v.
Proof. destruct v. reflexivity. Qed.

(** X3. With unique tag and vote keys, turning the requesting user's vote
    on a tag into its opposite and then back gives the store it started from:
    counters, vote rows and everything else. *)
Theorem add_vote_flip_back
    (pkgname tag ipaddress : string) (s : Session)
    (u : FASUser) (t : Tag) (v : Vote) :
  keys_ok s = true ->
  find_user ipaddress s = Some u ->
  resolve_tag pkgname tag s = Some t ->
  find_vote (user_id u) (tag_id t) s = Some v ->
  state_after (add_vote pkgname tag (vote_like v) ipaddress)
    (state_after (add_vote pkgname tag (negb (vote_like v)) ipaddress) s)
  = s.
Proof.
  intros Hk Hu Hr Hv. apply keys_ok_hold in Hk.
  destruct Hk as [Kt [Kv _]].
  destruct (with_user_known ipaddress s u Hu) as [Eu Es].
  destruct (resolve_tag_Some _ _ _ _ Hr) as [p [_ Hft]].
  destruct (find_tag_In _ _ _ _ Hft) as [Hint _].
  destruct (find_vote_In _ _ _ _ Hv) as [Hinv _].
  destruct (flipped_same (vote_like v) t) as [Fi [Fp Fl]].
  unfold state_after.
  rewrite (add_vote_run pkgname tag ipaddress (negb (vote_like v)) s).
  cbv zeta. rewrite Eu, Hr, Hv.
  assert (Bool.eqb (vote_like v) (negb (vote_like v)) = false) as ->
    by (destruct (vote_like v); reflexivity).
  cbn [snd].
  rewrite (add_vote_run_settled _ _ _ _ s) by reflexivity.
  rewrite (resolve_tag_put _ _ _ _ t) by assumption.
  rewrite Eu, Fi.
  assert (find_vote (user_id u) (tag_id t)
            (set_votes
               (put_vote (with_vote_like v (negb (vote_like v))) (votes s))
               (set_tags (put_tag (flipped (vote_like v) t) (tags s))
                  (with_user ipaddress s)))
          = Some (with_vote_like v (negb (vote_like v)))) as ->.
  { unfold find_vote in *. cbn [votes set_votes].
    apply (find_put vote_id _ v _ (votes s) Hv); [|reflexivity].
    apply find_some in Hv. exact (proj2 Hv). }
  cbn [vote_like with_vote_like].
  assert (Bool.eqb (negb (vote_like v)) (vote_like v) = false) as ->
    by (destruct (vote_like v); reflexivity).
  cbn [snd votes tags set_votes set_tags packages users ratings].
  rewrite Es, flipped_back.
  rewrite with_vote_like_back.
  unfold put_tag, put_vote.
  rewrite (put_back tag_id t (flipped (vote_like v) t) (tags s) Kt Hint Fi).
  rewrite (put_back vote_id v (with_vote_like v (negb (vote_like v)))
             (votes s) Kv Hinv eq_refl).
  destruct s. reflexivity.
Qed.

Lemma add_vote_flip_back_witness :
  state_after (add_vote "mattd" "daemon" true "10.0.0.1")
    (state_after (add_vote "mattd" "daemon" false "10.0.0.1") voted)
  = voted.
Proof.
  exact (add_vote_flip_back "mattd" "daemon" "10.0.0.1" voted
           (mkUser 1 "10.0.0.1") (mkTag 1 1 "daemon" 1 1) (mkVote 1 1 1 true)
           eq_refl eq_refl eq_refl eq_refl).
Defined.

(** X4. [add_vote] touches the vote of nobody else and the counters of no
    other tag: with unique vote keys, the lookup by any (user, tag) pair other
    than the requesting user's on the resolved tag finds after the call what
    it found before; every tag row with another key is still there; and the
    tag table has the same keys in the same order, so no tag is created or
    removed. *)
Theorem add_vote_leaves_others
    (pkgname tag : string) (vote : bool) (ipaddress : string) (s : Session) :
  distinct (map vote_id (votes s)) = true ->
  let s' := state_after (add_vote pkgname tag vote ipaddress) s in
  let u := the_user ipaddress s in
  (forall uid tid,
     (forall t, resolve_tag pkgname tag s = Some t ->
                uid <> user_id u \/ tid <> tag_id t) ->
     find_vote uid tid s' = find_vote uid tid s)
  /\ (forall r,
        In r (tags s) ->
        (forall t, resolve_tag pkgname tag s = Some t ->
                   tag_id r <> tag_id t) ->
        In r (tags s'))
  /\ map tag_id (tags s') = map tag_id (tags s).
Proof.
  intros Hd. apply distinct_NoDup in Hd. cbv zeta. unfold state_after.
  rewrite add_vote_run. cbv zeta.
  destruct (with_user_tables ipaddress s) as [_ [Et [Ev _]]].
  assert (forall uid tid,
            find_vote uid tid (with_user ipaddress s) = find_vote uid tid s)
    as Hsame by (intros; unfold find_vote; rewrite Ev; reflexivity).
  destruct (resolve_tag pkgname tag s) as [t|] eqn:Hr;
    [|cbn [snd]; rewrite Et; repeat split; auto].
  assert (forall (uid tid : Z) (w : Vote),
            uid <> user_id (the_user ipaddress s) \/ tid <> tag_id t ->
            vote_user_id w = user_id (the_user ipaddress s) ->
            vote_tag_id w = tag_id t ->
            Z.eqb (vote_user_id w) uid && Z.eqb (vote_tag_id w) tid = false)
    as Hmiss.
  { intros uid tid w Hne Hwu Hwt. rewrite Hwu, Hwt.
    destruct (Z.eqb_spec (user_id (the_user ipaddress s)) uid);
      destruct (Z.eqb_spec (tag_id t) tid); try reflexivity.
    exfalso. destruct Hne as [N|N]; apply N; congruence. }
  destruct (find_vote (user_id (the_user ipaddress s)) (tag_id t) s)
    as [v|] eqn:Hv.
  - destruct (Bool.eqb (vote_like v) vote);
      [cbn [snd]; rewrite Et; repeat split; auto|].
    cbn [snd tags votes set_votes set_tags].
    destruct (find_vote_In _ _ _ _ Hv) as [Hin [Hvu Hvt]].
    split; [|split].
    + intros uid tid Hne. specialize (Hne t eq_refl).
      unfold find_vote, put_vote. cbn [votes].
      apply (find_put_other vote_id).
      * intros r Hrow E. cbn [vote_id with_vote_like] in E.
        rewrite (key_inj vote_id (votes s) r v Hd Hrow Hin E).
        apply Hmiss; assumption.
      * apply Hmiss; [exact Hne | exact Hvu | exact Hvt].
    + intros r Hrow Hne. specialize (Hne t eq_refl).
      unfold put_tag. apply in_map_iff. exists r. split; [|exact Hrow].
      destruct (flipped_same (vote_like v) t) as [Fi _]. rewrite Fi.
      destruct (Z.eqb_spec (tag_id r) (tag_id t)); [contradiction|reflexivity].
    + apply put_tag_ids.
  - cbn [snd tags votes set_votes set_tags]. split; [|split].
    + intros uid tid Hne. specialize (Hne t eq_refl).
      unfold find_vote. cbn [votes]. apply find_app_other.
      apply Hmiss; [exact Hne | reflexivity | reflexivity].
    + intros r Hrow Hne. specialize (Hne t eq_refl).
      unfold put_tag. apply in_map_iff. exists r. split; [|exact Hrow].
      destruct (bumped_same vote t) as [Bi _]. rewrite Bi.
      destruct (Z.eqb_spec (tag_id r) (tag_id t)); [contradiction|reflexivity].
    + apply put_tag_ids.
Qed.

Lemma add_vote_leaves_others_witness :
  distinct (map vote_id (votes voted)) = true
  /\ find_vote 2 1 (state_after (add_vote "mattd" "daemon" false "10.0.0.1")
                      voted)
     = Some (mkVote 2 2 1 false).
Proof.
  split; [reflexivity|].
  destruct (add_vote_leaves_others "mattd" "daemon" false "10.0.0.1" voted
              eq_refl) as [H _].
  rewrite (H 2 1).
  - reflexivity.
  - intros t E. left. cbn. discriminate.
Defined.

(** X5. [add_vote] never gives a user a second vote on a tag: with unique
    vote keys, a vote table with at most one row per (user, tag) pair still
    has at most one row per pair after the call. *)
Theorem add_vote_one_vote_each
    (pkgname tag : string) (vote : bool) (ipaddress : string) (s : Session) :
  distinct (map vote_id (votes s)) = true ->
  NoDup (vote_pairs (votes s)) ->
  NoDup (vote_pairs
           (votes (state_after (add_vote pkgname tag vote ipaddress) s))).
Proof.
  intros Hd Hone. apply distinct_NoDup in Hd. unfold state_after.
  rewrite add_vote_run. cbv zeta.
  destruct (with_user_tables ipaddress s) as [_ [_ [Ev _]]].
  destruct (resolve_tag pkgname tag s) as [t|];
    [|cbn [snd]; rewrite Ev; exact Hone].
  destruct (find_vote (user_id (the_user ipaddress s)) (tag_id t) s)
    as [v|] eqn:Hv.
  - destruct (Bool.eqb (vote_like v) vote);
      [cbn [snd]; rewrite Ev; exact Hone|].
    cbn [snd votes set_votes]. unfold vote_pairs, put_vote.
    destruct (find_vote_In _ _ _ _ Hv) as [Hin _].
    rewrite (map_put vote_id _ v (with_vote_like v vote) (votes s) Hd Hin);
      [exact Hone | reflexivity | reflexivity].
  - cbn [snd votes set_votes]. unfold vote_pairs. rewrite map_app.
    apply NoDup_last; [exact Hone|].
    cbn [map new_vote vote_user_id vote_tag_id]. intros Hin.
    apply in_map_iff in Hin. destruct Hin as [w [E Hw]].
    injection E as Eu Et. unfold find_vote in Hv.
    pose proof (find_none _ _ Hv w Hw) as Hp. cbn beta in Hp.
    rewrite Eu, Et, !Z.eqb_refl in Hp. discriminate.
Qed.

Lemma add_vote_one_vote_each_witness :
  NoDup (vote_pairs
           (votes (state_after (add_vote "mattd" "daemon" false "10.0.0.3")
                     voted))).
Proof.
  apply add_vote_one_vote_each; [reflexivity|].
  cbn. constructor.
  - intros [E|[]]. discriminate E.
  - constructor; [intros [] | constructor].
Defined.

(** ** Calls in sequence *)

Lemma statistics_state (s : Session) : state_after statistics s = s.
Proof. reflexivity. Qed.

(** What [add_rating] leaves of the other tables. *)
Lemma add_rating_tables
    (pkgname : string) (rating : Z) (ipaddress : string) (s : Session) :
  let s' := state_after (add_rating pkgname rating ipaddress) s in
  packages s' = packages s /\ tags s' = tags s /\ votes s' = votes s
  /\ (users s' = users s \/ users s' = users (with_user ipaddress s))
  /\ begins (ratings s) (ratings s').
Proof.
  cbv zeta. unfold state_after. rewrite add_rating_run.
  destruct (find_package pkgname s) as [p|]; cbn [snd].
  - destruct (with_user_tables ipaddress s) as [Epk [Et [Ev Er]]].
    cbn [packages tags votes users ratings]. repeat split; auto.
    eexists. reflexivity.
  - repeat split; auto. exists []. rewrite app_nil_r. reflexivity.
Qed.

Lemma count_both (tid : Z) (vs : list Vote) :
  count_votes true tid vs + count_votes false tid vs
  = Py.len (filter (fun v => Z.eqb (vote_tag_id v) tid) vs).
Proof.
  induction vs as [|v vs IH]; [reflexivity|].
  rewrite !count_votes_cons. cbn [filter]. unfold weight.
  destruct (Z.eqb (vote_tag_id v) tid); cbn [andb].
  - rewrite len_cons. destruct (vote_like v); cbn [Bool.eqb]; lia.
  - lia.
Qed.

Lemma perform_keeps (c : call) (s : Session) :
  keys_hold (tags s) (votes s) -> counters_hold (tags s) (votes s) ->
  keys_hold (tags (perform c s)) (votes (perform c s))
  /\ counters_hold (tags (perform c s)) (votes (perform c s)).
Proof.
  intros Hk Hc. destruct c as [p t i|p r i|p t v i|]; cbn [perform].
  - exact (add_tag_keeps p t i s Hk Hc).
  - destruct (add_rating_tables p r i s) as [_ [Et [Ev _]]].
    cbv zeta in Et, Ev. rewrite Et, Ev. split; assumption.
  - exact (add_vote_keeps p t i s Hk Hc v).
  - rewrite statistics_state. split; assumption.
Qed.

(** X6. Whatever calls of the four operations follow one another, and
    whether they return or raise, a store that starts with sound keys and with
    counters equal to the vote counts ends that way; in it no counter is
    negative and [like + dislike] of a tag is the number of vote rows on that
    tag. *)
Theorem library_keeps_counters (cs : list call) (s : Session) :
  keys_ok s = true -> counters_ok s = true ->
  let s' := perform_all cs s in
  keys_ok s' = true
  /\ counters_ok s' = true
  /\ forall t, In t (tags s') ->
       0 <= tag_like t /\ 0 <= tag_dislike t
       /\ tag_like t + tag_dislike t
          = Py.len (filter (fun v => Z.eqb (vote_tag_id v) (tag_id t))
                           (votes s')).
Proof.
  intros Hk Hc. cbv zeta.
  assert (keys_hold (tags (perform_all cs s)) (votes (perform_all cs s))
          /\ counters_hold (tags (perform_all cs s))
                           (votes (perform_all cs s))) as [Hk' Hc'].
  { apply keys_ok_hold in Hk. apply counters_ok_hold in Hc.
    revert s Hk Hc. unfold perform_all.
    induction cs as [|c cs IH]; intros s Hk Hc; cbn [fold_left].
    - split; assumption.
    - destruct (perform_keeps c s Hk Hc) as [Hk1 Hc1].
      exact (IH _ Hk1 Hc1). }
  split; [apply keys_ok_hold; exact Hk'|].
  split; [apply counters_ok_hold; exact Hc'|].
  intros t Hin. destruct (Hc' t Hin) as [Hl Hd].
  rewrite Hl, Hd, count_both.
  repeat split; try apply count_votes_nonneg.
Qed.

Lemma library_keeps_counters_witness :
  tags (perform_all
          [CallAddTag "mattd" "daemon" "10.0.0.1";
           CallAddVote "mattd" "daemon" false "10.0.0.2";
           CallAddVote "mattd" "nothing" true "10.0.0.2";
           CallAddRating "mattd" 3 "10.0.0.1";
           CallAddVote "mattd" "daemon" false "10.0.0.1";
           CallStatistics;
           CallAddTag "mattd" "daemon" "10.0.0.2"] dev_data)
  = [mkTag 1 1 "daemon" 1 2]
  /\ counters_ok
       (perform_all
          [CallAddTag "mattd" "daemon" "10.0.0.1";
           CallAddVote "mattd" "daemon" false "10.0.0.2";
           CallAddVote "mattd" "nothing" true "10.0.0.2";
           CallAddRating "mattd" 3 "10.0.0.1";
           CallAddVote "mattd" "daemon" false "10.0.0.1";
           CallStatistics;
           CallAddTag "mattd" "daemon" "10.0.0.2"] dev_data)
     = true.
Proof.
  split; [reflexivity|].
  exact (proj1 (proj2 (library_keeps_counters _ dev_data eq_refl eq_refl))).
Defined.

Section Growth.

Lemma begins_refl {A : Type} (l : list A) : begins l l.
Proof. exists []. rewrite app_nil_r. reflexivity. Qed.

Lemma begins_more {A : Type} (l k : list A) : begins l (l ++ k).
Proof. exists k. reflexivity. Qed.

Lemma begins_trans {A : Type} (l1 l2 l3 : list A) :
  begins l1 l2 -> begins l2 l3 -> begins l1 l3.
Proof.
  intros [k1 ->] [k2 ->]. exists (k1 ++ k2). rewrite app_assoc. reflexivity.
Qed.

Lemma grown_refl (s : Session) : grown s s.
Proof. repeat split; apply begins_refl. Qed.

Lemma grown_trans (s1 s2 s3 : Session) :
  grown s1 s2 -> grown s2 s3 -> grown s1 s3.
Proof.
  intros [P1 [U1 [T1 [V1 R1]]]] [P2 [U2 [T2 [V2 R2]]]].
  split; [congruence|].
  repeat split; eapply begins_trans; eassumption.
Qed.

Lemma with_user_begins (ipaddress : string) (s : Session) :
  begins (users s) (users (with_user ipaddress s)).
Proof.
  unfold with_user, state_after, FASUser_get_or_create.
  destruct (find_user ipaddress s); cbn [snd users];
    [apply begins_refl | apply begins_more].
Qed.

Lemma perform_grown (c : call) (s : Session) : grown s (perform c s).
Proof.
  destruct c as [p t i|p r i|p t v i|]; cbn [perform].
  - unfold state_after. rewrite add_tag_run.
    destruct (find_package p s) as [pk|]; [|apply grown_refl].
    cbv zeta. destruct (with_user_tables i s) as [Epk [Et [Ev Er]]].
    destruct (find_tag (pkg_id pk) t s) as [tg|]; cbn [snd];
      unfold grown; cbn [packages users tags votes ratings set_votes set_tags].
    + split; [exact Epk|]. split; [apply with_user_begins|].
      split; [rewrite put_tag_ids; apply begins_refl|].
      split; [rewrite map_app; apply begins_more|].
      rewrite Er. apply begins_refl.
    + split; [exact Epk|]. split; [apply with_user_begins|].
      split; [rewrite map_app; apply begins_more|].
      split; [rewrite map_app; apply begins_more|].
      rewrite Er. apply begins_refl.
  - destruct (add_rating_tables p r i s) as [Epk [Et [Ev [Eu Er]]]].
    cbv zeta in *. unfold grown. rewrite Epk, Et, Ev.
    split; [reflexivity|]. split.
    { destruct Eu as [->| ->]; [apply begins_refl | apply with_user_begins]. }
    split; [apply begins_refl|]. split; [apply begins_refl | exact Er].
  - unfold state_after. rewrite add_vote_run. cbv zeta.
    destruct (with_user_tables i s) as [Epk [Et [Ev Er]]].
    assert (grown s (with_user i s)) as Hu.
    { unfold grown. rewrite Epk, Et, Ev, Er.
      split; [reflexivity|]. split; [apply with_user_begins|].
      repeat split; apply begins_refl. }
    destruct (resolve_tag p t s) as [tg|]; [|exact Hu].
    destruct (find_vote (user_id (the_user i s)) (tag_id tg) s) as [w|].
    + destruct (Bool.eqb (vote_like w) v); [exact Hu|].
      cbn [snd]. unfold grown.
      cbn [packages users tags votes ratings set_votes set_tags].
      split; [exact Epk|]. split; [apply with_user_begins|].
      split; [rewrite put_tag_ids; apply begins_refl|].
      split; [rewrite put_vote_ids; apply begins_refl|].
      rewrite Er. apply begins_refl.
    + cbn [snd]. unfold grown.
      cbn [packages users tags votes ratings set_votes set_tags].
      split; [exact Epk|]. split; [apply with_user_begins|].
      split; [rewrite put_tag_ids; apply begins_refl|].
      split; [rewrite map_app; apply begins_more|].
      rewrite Er. apply begins_refl.
  - rewrite statistics_state. apply grown_refl.
Qed.

End Growth.

(** X7. The library only adds: after any sequence of calls of the four
    operations the package table is what it was, and the user rows, the tag
    keys, the vote keys and the rating rows of the start are all still there,
    in their places, followed by what the calls added.  No call removes a row
    or gives a row's key to another. *)
Theorem library_only_adds (cs : list call) (s : Session) :
  let s' := perform_all cs s in
  packages s' = packages s
  /\ (exists us, users s' = users s ++ us)
  /\ (exists ks, map tag_id (tags s') = map tag_id (tags s) ++ ks)
  /\ (exists ks, map vote_id (votes s') = map vote_id (votes s) ++ ks)
  /\ (exists rs, ratings s' = ratings s ++ rs).
Proof.
  cbv zeta. change (grown s (perform_all cs s)).
  revert s. unfold perform_all.
  induction cs as [|c cs IH]; intros s; cbn [fold_left].
  - apply grown_refl.
  - exact (grown_trans _ _ _ (perform_grown c s) (IH (perform c s))).
Qed.

(** ** statistics and the other operations *)

Lemma len_filter_map {A B : Type} (f : A -> B) (g : B -> bool) (l : list A) :
  Py.len (filter (fun x => g (f x)) l) = Py.len (filter g (map f l)).
Proof.
  induction l as [|x l IH]; [reflexivity|]. cbn [filter map].
  destruct (g (f x)); [rewrite !len_cons, IH; reflexivity | exact IH].
Qed.

Lemma package_tags_len (s s' : Session) (p : Package) :
  map tag_package_id (tags s') = map tag_package_id (tags s) ->
  Py.len (Package_tags s' p) = Py.len (Package_tags s p).
Proof.
  intros H. unfold Package_tags.
  rewrite !(len_filter_map tag_package_id (fun i => Z.eqb i (pkg_id p))), H.
  reflexivity.
Qed.

(** [statistics] reads the packages, the package of every tag and the
    labels, and nothing else. *)
Lemma statistics_depends (s s' : Session) :
  packages s' = packages s ->
  map tag_package_id (tags s') = map tag_package_id (tags s) ->
  map tag_label (tags s') = map tag_label (tags s) ->
  outcome_of statistics s' = outcome_of statistics s.
Proof.
  intros Hp Hk Hl.
  unfold outcome_of, statistics, bind, Package_all, Tag_count_unique_label,
    ret, distinct_labels.
  cbn [fst]. rewrite Hp, Hl.
  rewrite (map_ext (fun p => (pkg_name p, Py.len (Package_tags s' p)))
                   (fun p => (pkg_name p, Py.len (Package_tags s p))))
    by (intros p; rewrite (package_tags_len s s' p Hk); reflexivity).
  rewrite (map_ext (fun p => Py.len (Package_tags s' p))
                   (fun p => Py.len (Package_tags s p)))
    by (intros p; apply package_tags_len; exact Hk).
  reflexivity.
Qed.

Lemma put_tag_shape (t t' : Tag) (ts : list Tag) :
  NoDup (map tag_id ts) -> In t ts ->
  tag_id t' = tag_id t -> tag_package_id t' = tag_package_id t ->
  tag_label t' = tag_label t ->
  map tag_package_id (put_tag t' ts) = map tag_package_id ts
  /\ map tag_label (put_tag t' ts) = map tag_label ts.
Proof.
  intros Hnd Hin Hid Hpk Hlb. unfold put_tag.
  split; apply (map_put tag_id _ t t' ts Hnd Hin Hid); assumption.
Qed.

(** X8. Votes and ratings do not show in the statistics: with unique tag
    keys, [statistics] gives after an [add_vote] or an [add_rating], returned
    or raised, the summary it gave before; so it does after an [add_tag] of a
    label the package already has. *)
Theorem statistics_ignores_votes
    (pkgname tag : string) (vote : bool) (rating : Z) (ipaddress : string)
    (s : Session) :
  distinct (map tag_id (tags s)) = true ->
  outcome_of statistics (state_after (add_vote pkgname tag vote ipaddress) s)
  = outcome_of statistics s
  /\ outcome_of statistics
       (state_after (add_rating pkgname rating ipaddress) s)
     = outcome_of statistics s
  /\ (forall t, resolve_tag pkgname tag s = Some t ->
        outcome_of statistics (state_after (add_tag pkgname tag ipaddress) s)
        = outcome_of statistics s).
Proof.
  intros Hd. apply distinct_NoDup in Hd.
  destruct (with_user_tables ipaddress s) as [Epk [Et [Ev Er]]].
  split; [|split].
  - unfold state_after. rewrite add_vote_run. cbv zeta.
    destruct (resolve_tag pkgname tag s) as [t|] eqn:Hr;
      [|cbn [snd]; apply statistics_depends; congruence].
    destruct (resolve_tag_Some _ _ _ _ Hr) as [p [_ Hft]].
    destruct (find_tag_In _ _ _ _ Hft) as [Hin _].
    destruct (find_vote (user_id (the_user ipaddress s)) (tag_id t) s)
      as [v|].
    + destruct (Bool.eqb (vote_like v) vote);
        [cbn [snd]; apply statistics_depends; congruence|].
      cbn [snd]. destruct (flipped_same (vote_like v) t) as [Fi [Fp Fl]].
      destruct (put_tag_shape t _ (tags s) Hd Hin Fi Fp Fl) as [Sp Sl].
      apply statistics_depends; assumption.
    + cbn [snd]. destruct (bumped_same vote t) as [Bi [Bp Bl]].
      destruct (put_tag_shape t _ (tags s) Hd Hin Bi Bp Bl) as [Sp Sl].
      apply statistics_depends; assumption.
  - destruct (add_rating_tables pkgname rating ipaddress s)
      as [Rp [Rt _]].
    cbv zeta in Rp, Rt. apply statistics_depends; congruence.
  - intros t Hr. destruct (resolve_tag_Some _ _ _ _ Hr) as [p [Hp Hft]].
    destruct (find_tag_In _ _ _ _ Hft) as [Hin _].
    unfold state_after. rewrite add_tag_run, Hp. cbv zeta. rewrite Hft.
    cbn [snd].
    destruct (put_tag_shape t (with_like t (tag_like t + 1)) (tags s) Hd Hin
                eq_refl eq_refl eq_refl) as [Sp Sl].
    apply statistics_depends; assumption.
Qed.

Lemma statistics_ignores_votes_witness :
  outcome_of statistics
    (state_after (add_vote "mattd" "daemon" false "10.0.0.1") voted)
  = outcome_of statistics voted
  /\ outcome_of statistics
       (state_after (add_tag "mattd" "daemon" "10.0.0.3") voted)
     = outcome_of statistics voted.
Proof.
  destruct (statistics_ignores_votes "mattd" "daemon" false 5 "10.0.0.1" voted
              eq_refl) as [Hv _].
  destruct (statistics_ignores_votes "mattd" "daemon" false 5 "10.0.0.3" voted
              eq_refl) as [_ [_ Ht]].
  split; [exact Hv | exact (Ht _ eq_refl)].
Defined.

Lemma nodup_last_len (l : list string) (x : string) :
  Py.len (nodup string_dec (l ++ [x]))
  = Py.len (nodup string_dec l)
    + (if existsb (String.eqb x) l then 0 else 1).
Proof.
  induction l as [|a l IH]; [reflexivity|].
  cbn [app nodup existsb].
  destruct (String.eqb_spec x a) as [E|E]; cbn [orb].
  - subst a. destruct (in_dec string_dec x (l ++ [x])) as [_|N].
    + rewrite IH. destruct (in_dec string_dec x l) as [I|N].
      * assert (existsb (String.eqb x) l = true) as ->; [|lia].
        apply existsb_exists. exists x. split; [exact I|apply String.eqb_refl].
      * assert (existsb (String.eqb x) l = false) as ->.
        { destruct (existsb (String.eqb x) l) eqn:Ex; [|reflexivity].
          apply existsb_exists in Ex. destruct Ex as [y [Hy Exy]].
          apply String.eqb_eq in Exy. subst y. contradiction. }
        rewrite len_cons. lia.
    + exfalso. apply N. apply in_or_app. right. left. reflexivity.
  - destruct (in_dec string_dec a (l ++ [x])) as [I|N];
      destruct (in_dec string_dec a l) as [I'|N'].
    + exact IH.
    + exfalso. apply in_app_or in I. destruct I as [I|[I|[]]];
        [contradiction | congruence].
    + exfalso. apply N. apply in_or_app. left. exact I'.
    + rewrite !len_cons, IH. lia.
Qed.

(** X9. Tagging a package with a label it does not have yet adds one to
    the number of tags of that package and leaves the number of tags of every
    other package; the number of distinct labels of the store grows by one
    when no tag had the label, and stays when some other package's tag had
    it. *)
Theorem add_tag_fresh_counts
    (pkgname tag ipaddress : string) (s : Session) (p : Package) :
  find_package pkgname s = Some p ->
  find_tag (pkg_id p) tag s = None ->
  let s' := state_after (add_tag pkgname tag ipaddress) s in
  (forall q, Py.len (Package_tags s' q)
             = Py.len (Package_tags s q)
               + (if Z.eqb (pkg_id q) (pkg_id p) then 1 else 0))
  /\ Py.len (distinct_labels (tags s'))
     = Py.len (distinct_labels (tags s))
       + (if existsb (String.eqb tag) (map tag_label (tags s)) then 0 else 1).
Proof.
  intros Hp Ht. cbv zeta. unfold state_after.
  rewrite add_tag_run, Hp. cbv zeta. rewrite Ht. cbn [snd].
  split.
  - intros q. unfold Package_tags. cbn [tags set_votes set_tags].
    rewrite filter_app, len_app. f_equal.
    cbn [filter new_tag tag_package_id].
    rewrite (Z.eqb_sym (pkg_id p) (pkg_id q)).
    destruct (Z.eqb (pkg_id q) (pkg_id p)); reflexivity.
  - unfold distinct_labels. cbn [tags set_votes set_tags].
    rewrite map_app. cbn [map new_tag tag_label]. apply nodup_last_len.
Qed.

Lemma add_tag_fresh_counts_witness :
  Py.len (Package_tags
            (state_after (add_tag "B" "x" "10.0.0.1") store_AB)
            (mkPackage 2 "B" "second")) = 1
  /\ Py.len (distinct_labels
               (tags (state_after (add_tag "B" "x" "10.0.0.1") store_AB)))
     = 3.
Proof.
  pose proof (add_tag_fresh_counts "B" "x" "10.0.0.1" store_AB
                (mkPackage 2 "B" "second") eq_refl eq_refl) as H.
  cbv zeta in H. destruct H as [Hq Hl].
  split; [exact (Hq (mkPackage 2 "B" "second")) | exact Hl].
Defined.

(** ** add_tag, then add_vote *)

Lemma add_vote_returns
    (pkgname tag : string) (vote : bool) (ipaddress : string) (s : Session)
    (t : Tag) :
  resolve_tag pkgname tag s = Some t ->
  exists msg, outcome_of (add_vote pkgname tag vote ipaddress) s = Return msg.
Proof.
  intros Hr. unfold outcome_of. rewrite add_vote_run. cbv zeta. rewrite Hr.
  destruct (find_vote (user_id (the_user ipaddress s)) (tag_id t) s) as [v|];
    [destruct (Bool.eqb (vote_like v) vote)|]; eexists; reflexivity.
Qed.

(** The tag a successful [add_tag] leaves for the package and the label. *)
Lemma add_tag_resolves
    (pkgname tag ipaddress : string) (s : Session) (p : Package) :
  find_package pkgname s = Some p ->
  resolve_tag pkgname tag (state_after (add_tag pkgname tag ipaddress) s)
  = Some match find_tag (pkg_id p) tag s with
         | Some t => with_like t (tag_like t + 1)
         | None => new_tag (pkg_id p) tag s
         end.
Proof.
  intros Hp. unfold state_after. rewrite add_tag_run, Hp. cbv zeta.
  destruct (with_user_tables ipaddress s) as [Epk [Et _]].
  destruct (find_tag (pkg_id p) tag s) as [t|] eqn:Ht; cbn [snd].
  - apply (resolve_tag_put _ _ _ _ t); try reflexivity.
    unfold resolve_tag. rewrite Hp. exact Ht.
  - rewrite (resolve_tag_after pkgname tag s _ p Hp) by exact Epk.
    unfold find_tag in *. cbn [tags set_votes set_tags].
    apply find_app_none; [exact Ht|]. cbn [new_tag tag_package_id tag_label].
    rewrite Z.eqb_refl, String.eqb_refl. reflexivity.
Qed.

(** X10. A tag that [add_tag] has just put on a package can be voted on:
    when [add_tag] returns, an [add_vote] for the same package and label, by
    any address and with either polarity, returns too and does not raise. *)
Theorem add_vote_after_add_tag
    (pkgname tag ipaddress : string) (s : Session) (m : string)
    (vote : bool) (voter : string) :
  outcome_of (add_tag pkgname tag ipaddress) s = Return m ->
  exists msg,
    outcome_of (add_vote pkgname tag vote voter)
               (state_after (add_tag pkgname tag ipaddress) s)
    = Return msg.
Proof.
  intros Hret.
  destruct (find_package pkgname s) as [p|] eqn:Hp.
  - eapply add_vote_returns. apply (add_tag_resolves _ _ _ _ p Hp).
  - unfold outcome_of in Hret. rewrite add_tag_run, Hp in Hret.
    discriminate Hret.
Qed.

Lemma add_vote_after_add_tag_witness :
  exists msg,
    outcome_of (add_vote "mattd" "daemon" false "10.0.0.9")
               (state_after (add_tag "mattd" "daemon" "10.0.0.1") dev_data)
    = Return msg.
Proof.
  exact (add_vote_after_add_tag "mattd" "daemon" "10.0.0.1" dev_data
           (msg_tag_added "daemon" "mattd") false "10.0.0.9" eq_refl).
Defined.

Lemma find_nowhere {A : Type} (P : A -> bool) (l : list A) :
  (forall x, In x l -> P x = false) -> find P l = None.
Proof.
  intros H. destruct (find P l) as [x|] eqn:E; [|reflexivity].
  apply find_some in E. destruct E as [Hin Hp].
  rewrite (H x Hin) in Hp. discriminate Hp.
Qed.

(** X11. The one who puts a new tag on a package has voted for it: in a
    store with sound keys, after [add_tag] of a label the package did not
    have, an [add_vote] of polarity like by the same address finds that vote,
    returns the "did not changed" message and leaves the store as [add_tag]
    left it. *)
Theorem add_tag_counts_as_vote
    (pkgname tag ipaddress : string) (s : Session) (p : Package) :
  keys_ok s = true ->
  find_package pkgname s = Some p ->
  find_tag (pkg_id p) tag s = None ->
  let s' := state_after (add_tag pkgname tag ipaddress) s in
  add_vote pkgname tag true ipaddress s'
  = (Return (Py.cat "Your vote on the tag "
              (Py.cat (Py.quoted tag)
                (Py.cat " for the package "
                  (Py.cat (Py.quoted pkgname) " did not changed")))),
     s').
Proof.
  intros Hk Hp Ht. cbv zeta. apply keys_ok_hold in Hk.
  destruct Hk as [_ [_ Kf]].
  pose proof (add_tag_resolves pkgname tag ipaddress s p Hp) as Hr.
  rewrite Ht in Hr. revert Hr. unfold state_after.
  rewrite add_tag_run, Hp. cbv zeta. rewrite Ht. cbn [snd]. intros Hr.
  rewrite (add_vote_run_settled _ _ _ _ s) by reflexivity.
  rewrite Hr.
  assert (find_vote (user_id (the_user ipaddress s))
            (tag_id (new_tag (pkg_id p) tag s))
            (set_votes
               (votes s ++ [new_vote (user_id (the_user ipaddress s))
                              (tag_id (new_tag (pkg_id p) tag s)) true s])
               (set_tags (tags s ++ [new_tag (pkg_id p) tag s])
                  (with_user ipaddress s)))
          = Some (new_vote (user_id (the_user ipaddress s))
                    (tag_id (new_tag (pkg_id p) tag s)) true s)) as ->.
  { unfold find_vote. cbn [votes set_votes]. apply find_app_none.
    - apply find_nowhere. intros w Hw.
      destruct (Z.eqb_spec (vote_tag_id w) (tag_id (new_tag (pkg_id p) tag s)))
        as [E|E]; [|apply andb_false_r].
      exfalso. apply (next_id_not_in (map tag_id (tags s))).
      cbn [new_tag tag_id] in E. rewrite <- E. apply Kf. exact Hw.
    - cbn [new_vote vote_user_id vote_tag_id]. rewrite !Z.eqb_refl.
      reflexivity. }
  reflexivity.
Qed.

Lemma add_tag_counts_as_vote_witness :
  add_vote "mattd" "daemon" true "10.0.0.1"
    (state_after (add_tag "mattd" "daemon" "10.0.0.1") dev_data)
  = (Return (msg_not_changed "daemon" "mattd"),
     mkSession [mattd] [mkUser 1 "10.0.0.1"] [mkTag 1 1 "daemon" 1 0]
               [mkVote 1 1 1 true] []).
Proof.
  exact (add_tag_counts_as_vote "mattd" "daemon" "10.0.0.1" dev_data mattd
           eq_refl eq_refl eq_refl).
Defined.

(** ** statistics on any store *)

Section DictKeys.

Context {V : Type}.

Lemma dict_set_keys (k : string) (v : V) (d : Py.dict V) :
  map fst (Py.dict_set k v d)
  = if existsb (String.eqb k) (map fst d) then map fst d
    else map fst d ++ [k].
Proof.
  induction d as [|[k' v'] d IH]; [reflexivity|].
  cbn [Py.dict_set map fst existsb]. rewrite (String.eqb_sym k k').
  destruct (String.eqb k' k); cbn [orb map fst]; [reflexivity|].
  rewrite IH. destruct (existsb (String.eqb k) (map fst d)); reflexivity.
Qed.

Lemma existsb_eqb_In (k : string) (l : list string) :
  existsb (String.eqb k) l = true <-> In k l.
Proof.
  rewrite existsb_exists. split.
  - intros [x [Hx E]]. apply String.eqb_eq in E. subst x. exact Hx.
  - intros H. exists k. split; [exact H | apply String.eqb_refl].
Qed.

Lemma dict_set_keys_In (k : string) (v : V) (d : Py.dict V) (x : string) :
  In x (map fst (Py.dict_set k v d)) <-> In x (map fst d) \/ x = k.
Proof.
  rewrite dict_set_keys.
  destruct (existsb (String.eqb k) (map fst d)) eqn:E.
  - apply existsb_eqb_In in E. split; [auto|].
    intros [H| ->]; assumption.
  - rewrite in_app_iff. cbn [In]. split.
    + intros [H|[<-|[]]]; auto.
    + intros [H| ->]; auto.
Qed.

Lemma dict_set_keys_NoDup (k : string) (v : V) (d : Py.dict V) :
  NoDup (map fst d) -> NoDup (map fst (Py.dict_set k v d)).
Proof.
  intros H. rewrite dict_set_keys.
  destruct (existsb (String.eqb k) (map fst d)) eqn:E; [exact H|].
  apply NoDup_last; [exact H|]. intros Hin.
  apply existsb_eqb_In in Hin. congruence.
Qed.

Lemma dict_fold_keys (l acc : list (string * V)) :
  NoDup (map fst acc) ->
  let d := fold_left (fun d kv => Py.dict_set (fst kv) (snd kv) d) l acc in
  NoDup (map fst d)
  /\ forall x, In x (map fst d) <-> In x (map fst acc) \/ In x (map fst l).
Proof.
  revert acc. induction l as [|[k v] l IH]; intros acc Hnd; cbv zeta;
    cbn [fold_left].
  - split; [exact Hnd|]. intros x. cbn. tauto.
  - destruct (IH (Py.dict_set k v acc) (dict_set_keys_NoDup k v acc Hnd))
      as [Hn Hi].
    cbv zeta in Hn, Hi. cbn [fst snd]. split; [exact Hn|].
    intros x. rewrite Hi, dict_set_keys_In. cbn [map fst In].
    split; intros H; intuition auto.
Qed.

(** A dict built from pairs has one entry per distinct key. *)
Lemma dict_of_len (l : list (string * V)) :
  Py.len (Py.dict_of l) = Py.len (nodup string_dec (map fst l)).
Proof.
  destruct (dict_fold_keys l [] (NoDup_nil _)) as [Hn Hi].
  cbv zeta in Hn, Hi. fold (Py.dict_of l) in Hn, Hi.
  unfold Py.len. f_equal.
  rewrite <- (length_map fst (Py.dict_of l)).
  apply Nat.le_antisymm; apply NoDup_incl_length.
  - exact Hn.
  - intros x Hx. apply nodup_In. apply Hi in Hx.
    destruct Hx as [[]|Hx]. exact Hx.
  - apply NoDup_nodup.
  - intros x Hx. apply nodup_In in Hx. apply Hi. right. exact Hx.
Qed.

End DictKeys.

Lemma len_filter_le {A : Type} (P : A -> bool) (l : list A) :
  Py.len (filter P l) <= Py.len l.
Proof.
  induction l as [|x l IH]; [reflexivity|]. cbn [filter].
  destruct (P x); rewrite !len_cons; lia.
Qed.

Lemma len_nodup_le (l : list string) :
  Py.len (nodup string_dec l) <= Py.len l.
Proof.
  induction l as [|x l IH]; [reflexivity|]. cbn [nodup].
  destruct (in_dec string_dec x l); rewrite !len_cons; lia.
Qed.

(** X12. On any store, also one where several packages share a name,
    [statistics] returns without touching the store: [total_packages] is the
    number of distinct package names; [no_tags] lies between 0 and
    [total_packages] and [with_tags] is what is left of it, so it is not
    negative; [total_unique_tags] lies between 0 and the number of tags; and
    each average is the integer 0 exactly when the number it would be divided
    by is 0, and a float otherwise. *)
Theorem statistics_any_store (s : Session) :
  exists (n n_tags no_tags : Z) (avg avg_nz : Py.num),
    statistics s
    = (Return
         [("summary",
           [("total_packages", Py.Int n);
            ("total_unique_tags", Py.Int n_tags);
            ("no_tags", Py.Int no_tags);
            ("with_tags", Py.Int (n - no_tags));
            ("tags_per_package", avg);
            ("tags_per_package_no_zeroes", avg_nz)])],
       s)
    /\ n = Py.len (nodup string_dec (map pkg_name (packages s)))
    /\ 0 <= no_tags <= n
    /\ 0 <= n_tags <= Py.len (tags s)
    /\ (n = 0 <-> packages s = [])
    /\ (if Z.eqb n 0 then avg = Py.Int 0 else exists f, avg = Py.Float f)
    /\ (if Z.eqb (n - no_tags) 0 then avg_nz = Py.Int 0
        else exists f, avg_nz = Py.Float f).
Proof.
  unfold statistics, bind, Package_all, Tag_count_unique_label, ret,
    distinct_labels.
  set (pairs := map (fun p => (pkg_name p, Py.len (Package_tags s p)))
                    (packages s)).
  set (raw_data := Py.dict_of pairs).
  exists (Py.len raw_data), (Py.len (nodup string_dec (map tag_label (tags s)))),
    (Py.len (filter (fun v => Z.eqb v 0) (Py.values raw_data))).
  eexists. eexists. split; [reflexivity|].
  assert (Py.len raw_data
          = Py.len (nodup string_dec (map pkg_name (packages s)))) as Hn.
  { unfold raw_data. rewrite dict_of_len. unfold pairs. rewrite map_map.
    reflexivity. }
  split; [exact Hn|]. split.
  { split; [apply len_nonneg|].
    eapply Z.le_trans; [apply len_filter_le|].
    unfold Py.values, Py.len. rewrite length_map. lia. }
  split.
  { split; [apply len_nonneg|].
    eapply Z.le_trans; [apply len_nodup_le|].
    unfold Py.len. rewrite length_map. lia. }
  split.
  { rewrite Hn. split.
    - intros H. destruct (packages s) as [|p l]; [reflexivity|].
      exfalso.
      assert (In (pkg_name p)
                 (nodup string_dec (map pkg_name (p :: l)))) as Hin
        by (apply nodup_In; left; reflexivity).
      destruct (nodup string_dec (map pkg_name (p :: l))); [destruct Hin|].
      rewrite len_cons in H. pose proof (len_nonneg l0). lia.
    - intros ->. reflexivity. }
  split.
  - destruct (Z.eqb (Py.len raw_data) 0); [reflexivity|eexists; reflexivity].
  - destruct (Z.eqb _ 0); [reflexivity|eexists; reflexivity].
Qed.

Section Totals.

Lemma sum_map_add {A : Type} (f g : A -> Z) (l : list A) :
  Py.sum (map (fun x => f x + g x) l) = Py.sum (map f l) + Py.sum (map g l).
Proof.
  induction l as [|x l IH]; [reflexivity|]. cbn [map].
  rewrite !sum_cons, IH. lia.
Qed.

Lemma sum_map_zero {A : Type} (f : A -> Z) (l : list A) :
  (forall x, In x l -> f x = 0) -> Py.sum (map f l) = 0.
Proof.
  induction l as [|x l IH]; intros H; [reflexivity|]. cbn [map].
  rewrite sum_cons, (H x (or_introl eq_refl)), IH; [reflexivity|].
  intros y Hy. apply H. right. exact Hy.
Qed.

(** Among packages with unique keys, one has the key [i] of the table. *)
Lemma one_package (i : Z) (pkgs : list Package) :
  NoDup (map pkg_id pkgs) -> In i (map pkg_id pkgs) ->
  Py.sum (map (fun p => if Z.eqb i (pkg_id p) then 1 else 0) pkgs) = 1.
Proof.
  induction pkgs as [|p pkgs IH]; cbn [map In]; [tauto|].
  intros Hnd Hin. inversion Hnd as [|? ? Hp Hrest]; subst.
  rewrite sum_cons. destruct (Z.eqb_spec i (pkg_id p)) as [E|E].
  - rewrite sum_map_zero; [reflexivity|]. intros q Hq.
    destruct (Z.eqb_spec i (pkg_id q)) as [E'|E']; [|reflexivity].
    exfalso. apply Hp. rewrite <- E, E'. apply in_map. exact Hq.
  - rewrite IH; [reflexivity | exact Hrest|].
    destruct Hin as [Hin|Hin]; [congruence | exact Hin].
Qed.

(** Every tag is counted once, with its package. *)
Lemma tags_counted_once (pkgs : list Package) (ts : list Tag) :
  NoDup (map pkg_id pkgs) ->
  (forall t, In t ts -> In (tag_package_id t) (map pkg_id pkgs)) ->
  Py.sum (map (fun p => Py.len (filter (fun t => Z.eqb (tag_package_id t)
                                                       (pkg_id p)) ts))
              pkgs)
  = Py.len ts.
Proof.
  intros Hnd. induction ts as [|t ts IH]; intros Hfk.
  - apply sum_map_zero. reflexivity.
  - rewrite (map_ext
               (fun p => Py.len (filter (fun t0 => Z.eqb (tag_package_id t0)
                                                         (pkg_id p))
                                        (t :: ts)))
               (fun p => (if Z.eqb (tag_package_id t) (pkg_id p) then 1 else 0)
                         + Py.len (filter (fun t0 => Z.eqb (tag_package_id t0)
                                                           (pkg_id p)) ts))).
    + rewrite sum_map_add, IH, one_package, len_cons.
      * reflexivity.
      * exact Hnd.
      * apply Hfk. left. reflexivity.
      * intros t0 Ht0. apply Hfk. right. exact Ht0.
    + intros p. cbn [filter].
      destruct (Z.eqb (tag_package_id t) (pkg_id p));
        [rewrite len_cons; reflexivity | reflexivity].
Qed.

End Totals.

(** X13. In a store with at least one package, unique package names and
    keys, and every tag on a package of the table, [tags_per_package] is the
    number of tag rows divided, as a float, by the number of packages. *)
Theorem statistics_average (s : Session) :
  NoDup (map pkg_name (packages s)) ->
  distinct (map pkg_id (packages s)) = true ->
  forallb (fun t => existsb (fun p => Z.eqb (pkg_id p) (tag_package_id t))
                            (packages s))
          (tags s) = true ->
  packages s <> [] ->
  exists (n_tags no_tags with_tags : Z) (avg_nz : Py.num),
    statistics s
    = (Return
         [("summary",
           [("total_packages", Py.Int (Py.len (packages s)));
            ("total_unique_tags", Py.Int n_tags);
            ("no_tags", Py.Int no_tags);
            ("with_tags", Py.Int with_tags);
            ("tags_per_package",
             Py.Float (Py.div_float (Py.len (tags s))
                                    (Py.len (packages s))));
            ("tags_per_package_no_zeroes", avg_nz)])],
       s).
Proof.
  intros Hnames Hkeys Hfk Hne.
  apply distinct_NoDup in Hkeys.
  assert (forall t, In t (tags s) ->
                    In (tag_package_id t) (map pkg_id (packages s))) as Hfk'.
  { intros t Ht. rewrite forallb_forall in Hfk. specialize (Hfk t Ht).
    apply existsb_exists in Hfk. destruct Hfk as [p [Hp E]].
    apply Z.eqb_eq in E. rewrite <- E. apply in_map. exact Hp. }
  unfold statistics, bind, Package_all, Tag_count_unique_label, ret,
    distinct_labels.
  rewrite dict_of_distinct by (rewrite map_map; exact Hnames).
  assert (Py.len (map (fun p => (pkg_name p, Py.len (Package_tags s p)))
                      (packages s))
          = Py.len (packages s)) as ->.
  { unfold Py.len. rewrite length_map. reflexivity. }
  assert (Z.eqb (Py.len (packages s)) 0 = false) as ->.
  { apply Z.eqb_neq. destruct (packages s) as [|p l]; [contradiction|].
    rewrite len_cons. pose proof (len_nonneg l). lia. }
  unfold Package_tags at 3.
  rewrite (tags_counted_once (packages s) (tags s) Hkeys Hfk').
  do 4 eexists. reflexivity.
Qed.

Lemma statistics_average_witness :
  exists (n_tags no_tags with_tags : Z) (avg_nz : Py.num),
    statistics store_AB
    = (Return
         [("summary",
           [("total_packages", Py.Int 2);
            ("total_unique_tags", Py.Int n_tags);
            ("no_tags", Py.Int no_tags);
            ("with_tags", Py.Int with_tags);
            ("tags_per_package", Py.Float (Py.div_float 3 2));
            ("tags_per_package_no_zeroes", avg_nz)])],
       store_AB).
Proof.
  apply (statistics_average store_AB).
  - cbn. constructor.
    + intros [E|[]]. discriminate E.
    + constructor; [intros [] | constructor].
  - reflexivity.
  - reflexivity.
  - discriminate.
Defined.
